(** * bonsai-sdk (TypeScript): the client of index.ts, embedded and verified

    The development follows [index.ts] top to bottom.  Values that the
    source types as [any] (response bodies, request payloads) are an
    inductive type of JavaScript values; the environment [process.env] is a
    finite map from names to strings; functions that can throw return a
    [Completion]; [async] methods thread the list of HTTP requests issued so
    far and ask a server oracle for each answer.  A JavaScript string is a
    Rocq string, one character per code unit (code units below 256). *)

From Stdlib Require Import ZArith List Lia.
From Stdlib.Strings Require Import String Ascii Byte.
From Stdlib Require Import DecimalString.
From stdpp Require Import base option list gmap strings.

Set Warnings "-register-all".
Local Open Scope string_scope.
Local Open Scope Z_scope.

(** ** JavaScript values *)

(** A Number: [Num z] is the Number value for the mathematical integer [z]
    (the runtime rounds it to a double, exactly so below 2^53). *)
Inductive Number : Type :=
  | NaN
  | Num (z : Z).

Definition isNaN (n : Number) : bool :=
  match n with NaN => true | Num _ => false end.

(** What [res.data] and a request payload can be.  [JsObject] is a plain
    data object as [JSON.parse] builds it (fields in insertion order);
    [JsBytes] is an [ArrayBuffer] or [Uint8Array]; [JsResponseLike v] is a
    host object whose one member is a method [json()] resolving to [v],
    which no JSON text decodes to. *)
Inductive JsValue : Type :=
  | JsUndefined
  | JsNull
  | JsBool (b : bool)
  | JsNumber (n : Number)
  | JsString (s : string)
  | JsArray (elems : list JsValue)
  | JsObject (fields : list (string * JsValue))
  | JsBytes (bytes : list byte)
  | JsResponseLike (payload : JsValue).

(** ** Errors and completions *)

Inductive Thrown : Type :=
  | Error (message : string)
  | SdkErr (message : string)
  | InternalServerError (message : string)
  | TypeError (message : string)
  | AxiosError (message : string) (response : option (Z * JsValue)).

Definition message_of (e : Thrown) : string :=
  match e with
  | Error m | SdkErr m | InternalServerError m | TypeError m
  | AxiosError m _ => m
  end.

Inductive Completion (A : Type) : Type :=
  | Return (a : A)
  | Throw (e : Thrown).
Arguments Return {A} a.
Arguments Throw {A} e.

(** ** Constants of index.ts *)

Definition API_KEY_HEADER : string := "x-api-key".
Definition VERSION_HEADER : string := "x-risc0-version".
Definition API_URL_ENVVAR : string := "BONSAI_API_URL".
Definition API_KEY_ENVVAR : string := "BONSAI_API_KEY".
Definition TIMEOUT_ENVVAR : string := "BONSAI_TIMEOUT_MS".
Definition DEFAULT_TIMEOUT : Number := Num 30000.

(** ** String helpers of the runtime *)

Definition code (c : ascii) : Z := Z.of_N (N_of_ascii c).

(** [s.endsWith("/")] *)
Fixpoint endsWith_slash (s : string) : bool :=
  match s with
  | EmptyString => false
  | String c EmptyString => if decide (c = "/"%char) then true else false
  | String _ r => endsWith_slash r
  end.

(** [s.slice(0, -1)]: all but the last code unit. *)
Fixpoint slice_0_m1 (s : string) : string :=
  match s with
  | EmptyString => EmptyString
  | String _ EmptyString => EmptyString
  | String c r => String c (slice_0_m1 r)
  end.

(** Truthiness of a [string | undefined]. *)
Definition truthy_str (o : option string) : bool :=
  match o with
  | None => false
  | Some EmptyString => false
  | Some _ => true
  end.

(** *** parseInt *)

(** White space and line terminators among the code units below 256. *)
Definition is_StrWhiteSpaceChar (c : ascii) : bool :=
  let n := code c in
  ((9 <=? n) && (n <=? 13)) || (n =? 32) || (n =? 160).

Fixpoint trimStart (s : string) : string :=
  match s with
  | String c r => if is_StrWhiteSpaceChar c then trimStart r else s
  | EmptyString => EmptyString
  end.

Definition digit_value (c : ascii) : option Z :=
  let n := code c in
  if (48 <=? n) && (n <=? 57) then Some (n - 48)
  else if (97 <=? n) && (n <=? 122) then Some (n - 87)
  else if (65 <=? n) && (n <=? 90) then Some (n - 55)
  else None.

Definition radix_digit (R : Z) (c : ascii) : option Z :=
  match digit_value c with
  | Some d => if d <? R then Some d else None
  | None => None
  end.

(** The longest prefix of radix-[R] digits, most significant first. *)
Fixpoint digits_prefix (R : Z) (s : string) : list Z :=
  match s with
  | String c r =>
      match radix_digit R c with
      | Some d => d :: digits_prefix R r
      | None => []
      end
  | EmptyString => []
  end.

Definition mathInt (R : Z) (ds : list Z) : Z :=
  fold_left (fun acc d => acc * R + d) ds 0.

Definition strip_sign (s : string) : Z * string :=
  match s with
  | String "-" r => (-1, r)
  | String "+" r => (1, r)
  | _ => (1, s)
  end.

Definition strip_0x (s : string) : option string :=
  match s with
  | String "0" (String "x" r) => Some r
  | String "0" (String "X" r) => Some r
  | _ => None
  end.

(** [parseInt(s, radix)] for an integral [radix] (0 stands for a missing
    one).  The sign of a zero result is not kept. *)
Definition parseInt (s : string) (radix : Z) : Number :=
  let '(sign, S1) := strip_sign (trimStart s) in
  if (radix =? 0) || ((2 <=? radix) && (radix <=? 36)) then
    let stripPrefix := (radix =? 0) || (radix =? 16) in
    let R0 := if radix =? 0 then 10 else radix in
    let '(R, S2) :=
      match (if stripPrefix then strip_0x S1 else None) with
      | Some r => (16, r)
      | None => (R0, S1)
      end in
    match digits_prefix R S2 with
    | [] => NaN
    | ds => Num (sign * mathInt R ds)
    end
  else NaN.

(** ** Environment lookup: getURL and getKey *)

Abbreviation Env := (gmap string string).

Definition is_set (o : option string) : bool :=
  match o with Some _ => true | None => false end.

Definition getURL (env : Env) : Completion (option string) :=
  if is_set (env !! ("REACT_APP_" +:+ API_URL_ENVVAR)) then
    Return (env !! ("REACT_APP_" +:+ API_URL_ENVVAR))
  else if is_set (env !! ("NEXT_PUBLIC_" +:+ API_URL_ENVVAR)) then
    Return (env !! ("NEXT_PUBLIC_" +:+ API_URL_ENVVAR))
  else if is_set (env !! ("GATSBY_" +:+ API_URL_ENVVAR)) then
    Return (env !! ("GATSBY_" +:+ API_URL_ENVVAR))
  else if is_set (env !! ("VUE_APP_" +:+ API_URL_ENVVAR)) then
    Return (env !! ("VUE_APP_" +:+ API_URL_ENVVAR))
  else if is_set (env !! ("VITE_" +:+ API_URL_ENVVAR)) then
    Return (env !! ("VITE_" +:+ API_URL_ENVVAR))
  else if is_set (env !! ("PUBLIC_" +:+ API_URL_ENVVAR)) then
    Return (env !! ("PUBLIC_" +:+ API_URL_ENVVAR))
  else if is_set (env !! ("NUXT_ENV_" +:+ API_URL_ENVVAR)) then
    Return (env !! ("NUXT_ENV_" +:+ API_URL_ENVVAR))
  else if is_set (env !! API_URL_ENVVAR) then
    Return (env !! API_URL_ENVVAR)
  else Throw (Error "bonsai sdk env variables are not set!").

Definition getKey (env : Env) : Completion (option string) :=
  if is_set (env !! ("REACT_APP_" +:+ API_KEY_ENVVAR)) then
    Return (env !! ("REACT_APP_" +:+ API_KEY_ENVVAR))
  else if is_set (env !! ("NEXT_PUBLIC_" +:+ API_KEY_ENVVAR)) then
    Return (env !! ("NEXT_PUBLIC_" +:+ API_KEY_ENVVAR))
  else if is_set (env !! ("GATSBY_" +:+ API_KEY_ENVVAR)) then
    Return (env !! ("GATSBY_" +:+ API_KEY_ENVVAR))
  else if is_set (env !! ("VUE_APP_" +:+ API_KEY_ENVVAR)) then
    Return (env !! ("VUE_APP_" +:+ API_KEY_ENVVAR))
  else if is_set (env !! ("VITE_" +:+ API_KEY_ENVVAR)) then
    Return (env !! ("VITE_" +:+ API_KEY_ENVVAR))
  else if is_set (env !! ("PUBLIC_" +:+ API_KEY_ENVVAR)) then
    Return (env !! ("PUBLIC_" +:+ API_KEY_ENVVAR))
  else if is_set (env !! ("NUXT_ENV_" +:+ API_KEY_ENVVAR)) then
    Return (env !! ("NUXT_ENV_" +:+ API_KEY_ENVVAR))
  else if is_set (env !! API_KEY_ENVVAR) then
    Return (env !! API_KEY_ENVVAR)
  else Throw (Error "bonsai sdk env variables are not set!").

(** ** The HTTP client: constructReqClient *)

(** The part of an [AxiosInstance] that the source configures or relies
    on.  [validateStatus] decides which response statuses resolve the
    request promise; the others reject it with an [AxiosError]. *)
Record AxiosInstance : Type := {
  timeout : option Number;
  headers : gmap string string;
  validateStatus : Z -> bool
}.

(** The default of [axios.create] when the configuration names none. *)
Definition axios_default_validateStatus (status : Z) : bool :=
  (200 <=? status) && (status <? 300).

Definition axios_create (timeout : option Number) (headers : gmap string string)
  : AxiosInstance :=
  {| timeout := timeout; headers := headers;
     validateStatus := axios_default_validateStatus |}.

Definition constructReqClient (env : Env) (apiKey version : string)
  : AxiosInstance :=
  let headers : gmap string string :=
    <[VERSION_HEADER := version]> (<[API_KEY_HEADER := apiKey]> ∅) in
  let envTimeout := env !! TIMEOUT_ENVVAR in
  let timeout :=
    if decide (envTimeout = Some "none") then None
    else if truthy_str envTimeout then
      let parsed := parseInt (default "" envTimeout) 10 in
      Some (if isNaN parsed then DEFAULT_TIMEOUT else parsed)
    else Some DEFAULT_TIMEOUT in
  axios_create timeout headers.

(** ** Client *)

Record Client : Type := {
  url : string;
  client : AxiosInstance
}.

(** The normalization that both constructors write out, under a name. *)
Definition normalize (u : string) : string :=
  if endsWith_slash u then slice_0_m1 u else u.

(** [constructReqClient] has no throwing path, so the [catch] of
    [fromParts] is never entered. *)
Definition fromParts (env : Env) (u key risc0Version : string)
  : Completion Client :=
  let c := constructReqClient env key risc0Version in
  let normalizedUrl := if endsWith_slash u then slice_0_m1 u else u in
  Return {| url := normalizedUrl; client := c |}.

Definition fromEnv (env : Env) (risc0Version : string) : Completion Client :=
  match getURL env with
  | Throw e => Throw e
  | Return apiUrl =>
      if negb (truthy_str apiUrl) then Throw (SdkErr "Missing API URL")
      else
        let u := default "" apiUrl in
        let normalizedUrl := if endsWith_slash u then slice_0_m1 u else u in
        match getKey env with
        | Throw e => Throw e
        | Return apiKey =>
            if negb (truthy_str apiKey) then Throw (SdkErr "Missing API Key")
            else
              let c := constructReqClient env (default "" apiKey) risc0Version in
              Return {| url := normalizedUrl; client := c |}
        end
  end.

(** ** Bytes and typed arrays *)

Definition byte_of_Z (z : Z) : byte :=
  default "000"%byte (Byte.of_N (Z.to_N (z mod 256))).

Definition Z_of_byte (b : byte) : Z := Z.of_N (Byte.to_N b).

(** The element conversion of a [Uint8Array]: NaN becomes 0, an integer is
    taken modulo 256. *)
Definition ToUint8 (n : Number) : byte :=
  match n with
  | NaN => byte_of_Z 0
  | Num z => byte_of_Z z
  end.

(** [Uint8Array.from(numbers)] and [new Uint8Array(numbers)] *)
Definition Uint8Array_from (l : list Number) : list byte := map ToUint8 l.

(** [Array.from(uint8array)] *)
Definition Array_from (l : list byte) : list Number :=
  map (fun b => Num (Z_of_byte b)) l.

(** [array.shift()], for the array left behind. *)
Definition shift {A : Type} (l : list A) : list A := tail l.

(** *** The regular expression /.{1,2}/g *)

(** [.] matches any code unit but a line terminator. *)
Definition is_LineTerminator (c : ascii) : bool :=
  let n := code c in (n =? 10) || (n =? 13).

(** All matches of [/.{1,2}/g], left to right: two code units when the next
    one is no line terminator either, else one; a line terminator is
    skipped. *)
Fixpoint regex_pairs (s : string) : list string :=
  match s with
  | EmptyString => []
  | String c r =>
      if is_LineTerminator c then regex_pairs r
      else
        match r with
        | EmptyString => [String c EmptyString]
        | String d r' =>
            if is_LineTerminator d then String c EmptyString :: regex_pairs r'
            else String c (String d EmptyString) :: regex_pairs r'
        end
  end.

(** [s.match(/.{1,2}/g)]: [None] is [null], returned when nothing matches. *)
Definition match_pairs (s : string) : option (list string) :=
  match regex_pairs s with
  | [] => None
  | l => Some l
  end.

(** The local [fromHexString] of [uploadInput]; the non-null assertion [!]
    leaves no trace at run time, so [.map] on [null] throws. *)
Definition fromHexString (hexString : string) : Completion (list byte) :=
  match match_pairs hexString with
  | None => Throw (TypeError "Cannot read properties of null (reading 'map')")
  | Some chunks => Return (Uint8Array_from (map (fun b => parseInt b 16) chunks))
  end.

(** ** The runtime's conversions and the HTTP layer *)

(** Built-ins whose results the source only passes on: [ToString] as a
    template literal applies it to a value that is no string,
    [JSON.stringify], and the default response transform of axios (it
    parses the body as JSON where it can and leaves the text otherwise). *)
Class JsRuntime : Type := {
  ToString : JsValue -> string;
  JSON_stringify : JsValue -> JsValue;
  transformResponse : list byte -> JsValue
}.

Inductive Method : Type := GET | PUT | POST | DELETE.

Record Request : Type := {
  req_method : Method;
  req_url : JsValue;
  req_headers : gmap string string;
  req_data : JsValue
}.

Definition request_of (inst : AxiosInstance) (m : Method) (u payload : JsValue)
  : Request :=
  {| req_method := m; req_url := u;
     req_headers := headers inst; req_data := payload |}.

(** What the network gives back for a request: no response at all (the
    connection failed or the timeout elapsed) or a status and a body. *)
Inductive Outcome : Type :=
  | NoResponse (message : string)
  | Response (status : Z) (body : list byte).

(** The server, a deterministic function of the requests seen so far and
    of the request at hand. *)
Definition Server : Type := list Request -> Request -> Outcome.

Record AxiosResponse (D : Type) : Type := {
  status : Z;
  data : D
}.
Arguments status {D} _.
Arguments data {D} _.

(** An [async] computation: from the requests issued so far to a completion
    and the requests issued by the end. *)
Definition Async (A : Type) : Type :=
  list Request -> Completion A * list Request.

Definition ret {A : Type} (a : A) : Async A := fun t => (Return a, t).

Definition throw {A : Type} (e : Thrown) : Async A := fun t => (Throw e, t).

Definition bind {A B : Type} (m : Async A) (k : A -> Async B) : Async B :=
  fun t =>
    match m t with
    | (Return a, t') => k a t'
    | (Throw e, t') => (Throw e, t')
    end.

Definition try_catch {A : Type} (m : Async A) (h : Thrown -> Async A)
  : Async A :=
  fun t =>
    match m t with
    | (Return a, t') => (Return a, t')
    | (Throw e, t') => h e t'
    end.

Definition lift {A : Type} (c : Completion A) : Async A := fun t => (c, t).

Notation "x <- m ;; k" := (bind m (fun x => k))
  (at level 100, m at next level, right associativity).
Notation "m ;;; k" := (bind m (fun _ => k))
  (at level 100, right associativity).

(** Truthiness of a value, as [||] tests it. *)
Definition truthy (v : JsValue) : bool :=
  match v with
  | JsUndefined | JsNull => false
  | JsBool b => b
  | JsNumber NaN => false
  | JsNumber (Num z) => negb (z =? 0)
  | JsString s => negb (String.eqb s "")
  | _ => true
  end.

(** [v.name] for the names the source reads off a response ([url],
    [uuid]), which no prototype defines: the field of a plain object,
    [undefined] on any other value, a TypeError on [null] and [undefined]. *)
Fixpoint assoc (name : string) (fields : list (string * JsValue)) : JsValue :=
  match fields with
  | [] => JsUndefined
  | (k, v) :: r => if String.eqb k name then v else assoc name r
  end.

Definition get_prop (v : JsValue) (name : string) : Completion JsValue :=
  match v with
  | JsUndefined =>
      Throw (TypeError ("Cannot read properties of undefined (reading '" +:+ name +:+ "')"))
  | JsNull =>
      Throw (TypeError ("Cannot read properties of null (reading '" +:+ name +:+ "')"))
  | JsObject fields => Return (assoc name fields)
  | _ => Return JsUndefined
  end.

(** [await v.json()]: only a host object with that method answers; on a
    decoded JSON value, a string or a buffer, [json] is no function. *)
Definition call_json (v : JsValue) : Completion JsValue :=
  match v with
  | JsResponseLike payload => Return payload
  | JsUndefined =>
      Throw (TypeError "Cannot read properties of undefined (reading 'json')")
  | JsNull =>
      Throw (TypeError "Cannot read properties of null (reading 'json')")
  | _ => Throw (TypeError "res.data.json is not a function")
  end.

(** ** The methods of index.ts *)

Record SessionId : Type := { uuid : JsValue }.
Record SnarkId : Type := { snark_uuid : JsValue }.

Inductive ImageExistsOpt : Type :=
  | Exists
  | New (data : JsValue).

Section Methods.
Context {rt : JsRuntime}.
Variable server : Server.

(** A template literal's substitution [${v}]. *)
Definition template (v : JsValue) : string :=
  match v with
  | JsString s => s
  | _ => ToString v
  end.

(** One request through an axios instance.  The request is recorded, the
    server answers, and the promise settles as axios settles it: resolved
    when the response has no status or [validateStatus] accepts it,
    rejected with an [AxiosError] carrying the response otherwise.
    [decode] is the body's decoding for the request's [responseType]. *)
Definition axios_request {D : Type} (decode : list byte -> D)
    (inj : D -> JsValue) (inst : AxiosInstance) (m : Method)
    (u payload : JsValue) (validate : option (Z -> bool))
  : Async (AxiosResponse D) :=
  fun t =>
    let rq := request_of inst m u payload in
    let t' := (t ++ [rq])%list in
    match server t rq with
    | NoResponse msg => (Throw (AxiosError msg None), t')
    | Response s body =>
        let accept := default (validateStatus inst) validate in
        if (s =? 0) || accept s then
          (Return {| status := s; data := decode body |}, t')
        else
          (Throw (AxiosError
                    ("Request failed with status code " +:+ template (JsNumber (Num s)))
                    (Some (s, inj (decode body)))), t')
    end.

(** [inst.get(url, config)], [inst.put(url, body)], ... with the default
    response type. *)
Definition axios_get (inst : AxiosInstance) (u : JsValue)
    (validate : option (Z -> bool)) : Async (AxiosResponse JsValue) :=
  axios_request transformResponse id inst GET u JsUndefined validate.

Definition axios_put (inst : AxiosInstance) (u body : JsValue)
  : Async (AxiosResponse JsValue) :=
  axios_request transformResponse id inst PUT u body None.

Definition axios_post (inst : AxiosInstance) (u body : JsValue)
  : Async (AxiosResponse JsValue) :=
  axios_request transformResponse id inst POST u body None.

(** [inst.get(url, { responseType: 'arraybuffer' })]: the body as it is. *)
Definition axios_get_arraybuffer (inst : AxiosInstance) (u : JsValue)
  : Async (AxiosResponse (list byte)) :=
  axios_request id JsBytes inst GET u JsUndefined None.

(** The body put into an error message by [receiptDownload] and the
    [create] methods. *)
Definition body_text (d : JsValue) : JsValue :=
  match d with
  | JsString _ => d
  | _ => JSON_stringify d
  end.

Definition not_2xx (s : Z) : bool := (s <? 200) || (s >=? 300).

(** *** SessionId and SnarkId *)

Definition SessionId_status (self : SessionId) (c : Client) : Async JsValue :=
  let u := url c +:+ "/sessions/status/" +:+ template (uuid self) in
  res <- axios_get (client c) (JsString u) None ;;
  if negb (status res =? 200) then
    throw (InternalServerError ("Internal server error: " +:+ template (data res)))
  else ret (data res).

Definition SnarkId_status (self : SnarkId) (c : Client) : Async JsValue :=
  let u := url c +:+ "/snark/status/" +:+ template (snark_uuid self) in
  res <- axios_get (client c) (JsString u) None ;;
  if negb (status res =? 200) then
    throw (InternalServerError ("Internal server error: " +:+ template (data res)))
  else ret (data res).

(** *** Client *)

Definition getImageUploadUrl (c : Client) (imageId : string)
  : Async ImageExistsOpt :=
  let requestUrl := url c +:+ "/images/upload/" +:+ imageId in
  res <- axios_get (client c) (JsString requestUrl) None ;;
  if status res =? 204 then ret Exists
  else if negb (status res =? 200) then
    throw (InternalServerError ("Internal server error: " +:+ template (data res)))
  else
    d <- lift (call_json (data res)) ;;
    ret (New d).

Definition putData (c : Client) (u body : JsValue) : Async unit :=
  try_catch
    (response <- axios_put (client c) u body ;;
     if (status response <? 200) || (status response >=? 300) then
       throw (Error ("Request failed with status code "
                     +:+ template (JsNumber (Num (status response)))))
     else ret tt)
    (fun error =>
       match error with
       | AxiosError msg response =>
           let d := match response with
                    | Some (_, d) => d
                    | None => JsUndefined
                    end in
           let errorMessage := if truthy d then d else JsString msg in
           throw (InternalServerError
                    ("Internal server error: " +:+ template errorMessage))
       | _ =>
           throw (Error ("An unexpected error occurred: " +:+ message_of error))
       end).

(** The last branch of the source (a [kind] that is neither) has no value
    of [ImageExistsOpt] to run on. *)
Definition uploadImg (c : Client) (imageId : string) (buf : list byte)
  : Async bool :=
  resOrExists <- getImageUploadUrl c imageId ;;
  match resOrExists with
  | Exists => ret true
  | New d =>
      u <- lift (get_prop d "url") ;;
      putData c u (JsBytes buf) ;;;
      ret false
  end.

Definition getUploadUrl (c : Client) (route : string) : Async JsValue :=
  let requestUrl := url c +:+ "/" +:+ route +:+ "/upload" in
  res <- axios_get (client c) (JsString requestUrl) None ;;
  if negb (status res =? 200) then
    throw (InternalServerError ("Internal server error: " +:+ template (data res)))
  else ret (data res).

Definition uploadInput (c : Client) (encoded : string) : Async JsValue :=
  decoded <- lift (fromHexString encoded) ;;
  let jsonCompatibleArray := Array_from decoded in
  let jsonCompatibleArray := shift jsonCompatibleArray in
  let buf := Uint8Array_from jsonCompatibleArray in
  uploadData <- getUploadUrl c "inputs" ;;
  u <- lift (get_prop uploadData "url") ;;
  putData c u (JsBytes buf) ;;;
  lift (get_prop uploadData "uuid").

Definition uploadReceipt (c : Client) (buf : list byte) : Async JsValue :=
  uploadData <- getUploadUrl c "receipts" ;;
  u <- lift (get_prop uploadData "url") ;;
  putData c u (JsBytes buf) ;;;
  lift (get_prop uploadData "uuid").

Definition download (c : Client) (u : JsValue) : Async (list byte) :=
  try_catch
    (res <- axios_get_arraybuffer (client c) u ;;
     ret (data res))
    (fun error => throw (SdkErr ("Download failed: " +:+ message_of error))).

Definition receiptDownload (c : Client) (sessionId : SessionId)
  : Async (list byte) :=
  let requestUrl := url c +:+ "/receipts/" +:+ template (uuid sessionId) in
  res <- axios_get (client c) (JsString requestUrl) (Some (fun _ => true)) ;;
  if (status res <? 200) || (status res >=? 300) then
    if status res =? 404 then throw (SdkErr "ReceiptNotFound")
    else
      throw (InternalServerError
               ("Internal server error: " +:+ template (body_text (data res))))
  else
    u <- lift (get_prop (data res) "url") ;;
    download c u.

Definition createSessionWithLimit (c : Client) (imgId inputId : string)
    (assumptions : list string) (executeOnly : bool)
    (execCycleLimit : option Number) : Async SessionId :=
  let requestUrl := url c +:+ "/sessions/create" in
  let req := JsObject
    [ ("img", JsString imgId);
      ("input", JsString inputId);
      ("assumptions", JsArray (map JsString assumptions));
      ("execute_only", JsBool executeOnly);
      ("exec_cycle_limit",
        match execCycleLimit with
        | Some n => JsNumber n
        | None => JsUndefined
        end) ] in
  res <- axios_post (client c) (JsString requestUrl) req ;;
  if (status res <? 200) || (status res >=? 300) then
    throw (InternalServerError
             ("Internal server error: " +:+ template (body_text (data res))))
  else
    r_uuid <- lift (get_prop (data res) "uuid") ;;
    ret {| uuid := r_uuid |}.

Definition createSession (c : Client) (imgId inputId : string)
    (assumptions : list string) (executeOnly : bool) : Async SessionId :=
  sessionId <- createSessionWithLimit c imgId inputId assumptions executeOnly None ;;
  ret sessionId.

End Methods.

(** ** The requests the methods issue *)

Section Requests.
Context {rt : JsRuntime}.

Definition image_check (c : Client) (imageId : string) : Request :=
  request_of (client c) GET
    (JsString (url c +:+ "/images/upload/" +:+ imageId)) JsUndefined.

Definition upload_ticket_request (c : Client) (route : string) : Request :=
  request_of (client c) GET
    (JsString (url c +:+ "/" +:+ route +:+ "/upload")) JsUndefined.

Definition receipt_lookup (c : Client) (sessionId : SessionId) : Request :=
  request_of (client c) GET
    (JsString (url c +:+ "/receipts/" +:+ template (uuid sessionId)))
    JsUndefined.

Definition session_status_request (self : SessionId) (c : Client) : Request :=
  request_of (client c) GET
    (JsString (url c +:+ "/sessions/status/" +:+ template (uuid self)))
    JsUndefined.

Definition snark_status_request (self : SnarkId) (c : Client) : Request :=
  request_of (client c) GET
    (JsString (url c +:+ "/snark/status/" +:+ template (snark_uuid self)))
    JsUndefined.

Definition session_create_request (c : Client) (imgId inputId : string)
    (assumptions : list string) (executeOnly : bool)
    (execCycleLimit : option Number) : Request :=
  request_of (client c) POST (JsString (url c +:+ "/sessions/create"))
    (JsObject
       [ ("img", JsString imgId);
         ("input", JsString inputId);
         ("assumptions", JsArray (map JsString assumptions));
         ("execute_only", JsBool executeOnly);
         ("exec_cycle_limit",
           match execCycleLimit with
           | Some n => JsNumber n
           | None => JsUndefined
           end) ]).

End Requests.

(** ** The other methods of index.ts *)

(** [await v.arrayBuffer()]: no value that the default response type
    yields has the method. *)
Definition call_arrayBuffer (v : JsValue) : Completion (list byte) :=
  match v with
  | JsUndefined =>
      Throw (TypeError "Cannot read properties of undefined (reading 'arrayBuffer')")
  | JsNull =>
      Throw (TypeError "Cannot read properties of null (reading 'arrayBuffer')")
  | _ => Throw (TypeError "res.data.arrayBuffer is not a function")
  end.

Section OtherMethods.
Context {rt : JsRuntime}.
Variable server : Server.

(** [inst.delete(url, config)] *)
Definition axios_delete (inst : AxiosInstance) (u : JsValue)
    (validate : option (Z -> bool)) : Async (AxiosResponse JsValue) :=
  axios_request server transformResponse id inst DELETE u JsUndefined validate.

Definition SessionId_logs (self : SessionId) (c : Client) : Async JsValue :=
  let u := url c +:+ "/sessions/logs/" +:+ template (uuid self) in
  res <- axios_get server (client c) (JsString u) None ;;
  if negb (status res =? 200) then
    throw (InternalServerError ("Internal server error: " +:+ template (data res)))
  else ret (data res).

Definition SessionId_stop (self : SessionId) (c : Client) : Async unit :=
  let u := url c +:+ "/sessions/stop/" +:+ template (uuid self) in
  res <- axios_get server (client c) (JsString u) None ;;
  if negb (status res =? 200) then
    throw (InternalServerError ("Internal server error: " +:+ template (data res)))
  else ret tt.

(** [new Uint8Array(buffer)] on an [ArrayBuffer] is its bytes. *)
Definition SessionId_execOnlyJournal (self : SessionId) (c : Client)
  : Async (list byte) :=
  let u := url c +:+ "/sessions/exec_only_journal/" +:+ template (uuid self) in
  res <- axios_get server (client c) (JsString u) None ;;
  if negb (status res =? 200) then
    throw (InternalServerError ("Internal server error: " +:+ template (data res)))
  else
    buffer <- lift (call_arrayBuffer (data res)) ;;
    ret buffer.

Definition imageDelete (c : Client) (imageId : string) : Async unit :=
  let requestUrl := url c +:+ "/images/" +:+ imageId in
  res <- axios_delete (client c) (JsString requestUrl) (Some (fun _ => true)) ;;
  if (status res <? 200) || (status res >=? 300) then
    throw (InternalServerError
             ("Internal server error: " +:+ template (body_text (data res))))
  else ret tt.

Definition inputDelete (c : Client) (inputUuid : string) : Async unit :=
  let requestUrl := url c +:+ "/inputs/" +:+ inputUuid in
  res <- axios_delete (client c) (JsString requestUrl) (Some (fun _ => true)) ;;
  if (status res <? 200) || (status res >=? 300) then
    throw (InternalServerError
             ("Internal server error: " +:+ template (body_text (data res))))
  else ret tt.

(** The argument goes through a template literal, so a caller may hand
    over the [uuid] of a handle as it came from the server. *)
Definition createSnark (c : Client) (sessionId : JsValue) : Async SnarkId :=
  let requestUrl := url c +:+ "/snark/create" in
  let req := JsObject [("session_id", JsString (template sessionId))] in
  res <- axios_post server (client c) (JsString requestUrl) req ;;
  if (status res <? 200) || (status res >=? 300) then
    throw (InternalServerError
             ("Internal server error: " +:+ template (body_text (data res))))
  else
    r_uuid <- lift (get_prop (data res) "uuid") ;;
    ret {| snark_uuid := r_uuid |}.

Definition version (c : Client) : Async JsValue :=
  let requestUrl := url c +:+ "/version" in
  res <- axios_get server (client c) (JsString requestUrl) None ;;
  if negb (status res =? 200) then
    throw (InternalServerError ("Internal server error: " +:+ template (data res)))
  else lift (call_json (data res)).

Definition quotas (c : Client) : Async JsValue :=
  let requestUrl := url c +:+ "/user/quotas" in
  res <- axios_get server (client c) (JsString requestUrl) None ;;
  if negb (status res =? 200) then
    throw (InternalServerError ("Internal server error: " +:+ template (data res)))
  else lift (call_json (data res)).

End OtherMethods.

Section OtherRequests.
Context {rt : JsRuntime}.

Definition handle_request (c : Client) (op : string) (id : JsValue) : Request :=
  request_of (client c) GET
    (JsString (url c +:+ "/sessions/" +:+ op +:+ "/" +:+ template id))
    JsUndefined.

Definition delete_request (c : Client) (kind id : string) : Request :=
  request_of (client c) DELETE
    (JsString (url c +:+ "/" +:+ kind +:+ "/" +:+ id)) JsUndefined.

Definition snark_create_request (c : Client) (sessionId : JsValue) : Request :=
  request_of (client c) POST (JsString (url c +:+ "/snark/create"))
    (JsObject [("session_id", JsString (template sessionId))]).

End OtherRequests.

(** The client that both constructors build, around the instance of
    [constructReqClient]. *)
Definition built_client (env : Env) (base key ver : string) : Client :=
  {| url := base; client := constructReqClient env key ver |}.

Definition get_request (c : Client) (u : JsValue) : Request :=
  request_of (client c) GET u JsUndefined.

Definition put_request (c : Client) (u : JsValue) (buf : list byte) : Request :=
  request_of (client c) PUT u (JsBytes buf).

(** ** What a computation sends *)

(** [m] adds at most [n] requests to those already issued, each with the
    headers of the client's instance. *)
Definition issues {A : Type} (c : Client) (n : nat) (m : Async A) : Prop :=
  forall t, exists new,
    snd (m t) = (t ++ new)%list /\
    (length new <= n)%nat /\
    Forall (fun r => req_headers r = headers (client c)) new.

(** ** A server that keeps what is PUT *)

(** The bytes last PUT to the URL [u] among the requests [t]. *)
Fixpoint stored_at (u : string) (t : list Request) : option (list byte) :=
  match t with
  | [] => None
  | rq :: rest =>
      match stored_at u rest with
      | Some b => Some b
      | None =>
          match req_method rq, req_url rq, req_data rq with
          | PUT, JsString v, JsBytes b =>
              if String.eqb v u then Some b else None
          | _, _, _ => None
          end
      end
  end.

(** [base], with presigned URLs that accept every PUT and serve to a GET
    what was last PUT there. *)
Definition with_storage (base : Server) : Server := fun t rq =>
  match req_method rq, req_url rq with
  | PUT, JsString _ => Response 200 []
  | GET, JsString u =>
      match stored_at u t with
      | Some b => Response 200 b
      | None => base t rq
      end
  | _, _ => base t rq
  end.

(** ** Reference definitions, in the specification's words *)

(** The prefixes in priority order; the last one is the bare name. *)
Definition prefix_order : list string :=
  ["REACT_APP_"; "NEXT_PUBLIC_"; "GATSBY_"; "VUE_APP_"; "VITE_"; "PUBLIC_";
   "NUXT_ENV_"; ""].

(** The value of the first name of the list that the environment sets. *)
Fixpoint first_set (env : Env) (names : list string) : option string :=
  match names with
  | [] => None
  | n :: rest =>
      match env !! n with
      | Some v => Some v
      | None => first_set env rest
      end
  end.

Definition probe (env : Env) (suffix : string) : option string :=
  first_set env (map (fun p => p +:+ suffix) prefix_order).

(** Timeout resolution as the specification words it; [None] is "no
    timeout". *)
Definition resolve_timeout (value : option string) : option Number :=
  match value with
  | None => Some (Num 30000)
  | Some s =>
      if decide (s = "none") then None
      else match parseInt s 10 with
           | NaN => Some (Num 30000)
           | Num n => Some (Num n)
           end
  end.

(** The integer that a decimal numeral denotes. *)
Definition is_decimal_digit (c : ascii) : bool :=
  (48 <=? code c) && (code c <=? 57).

Fixpoint all_decimal (s : string) : bool :=
  match s with
  | EmptyString => true
  | String c r => is_decimal_digit c && all_decimal r
  end.

Definition decimal_value (s : string) : Z :=
  fold_left (fun acc c => acc * 10 + (code c - 48)) (list_ascii_of_string s) 0.

(** Hex decoding at two characters per byte; a last unpaired character is
    a byte of its own. *)
Definition is_hex_digit (c : ascii) : bool :=
  match radix_digit 16 c with Some _ => true | None => false end.

Fixpoint is_hex (s : string) : bool :=
  match s with
  | EmptyString => true
  | String c r => is_hex_digit c && is_hex r
  end.

Definition hex_value (c : ascii) : Z := default 0 (digit_value c).

Fixpoint hex_decode (s : string) : list byte :=
  match s with
  | EmptyString => []
  | String a EmptyString => [byte_of_Z (hex_value a)]
  | String a (String b r) =>
      byte_of_Z (16 * hex_value a + hex_value b) :: hex_decode r
  end.

(** ** A sample runtime, server and client for the examples *)

Definition dq : string := String (ascii_of_nat 34) EmptyString.

(** The JSON text of an object with string fields. *)
Fixpoint json_fields (fields : list (string * string)) : string :=
  match fields with
  | [] => ""
  | [(k, v)] => dq +:+ k +:+ dq +:+ ":" +:+ dq +:+ v +:+ dq
  | (k, v) :: rest =>
      dq +:+ k +:+ dq +:+ ":" +:+ dq +:+ v +:+ dq +:+ "," +:+ json_fields rest
  end.

Definition json_text (fields : list (string * string)) : list byte :=
  list_byte_of_string ("{" +:+ json_fields fields +:+ "}").

Definition json_object (fields : list (string * string)) : JsValue :=
  JsObject (map (fun kv => (fst kv, JsString (snd kv))) fields).

Definition sample_ticket : list (string * string) :=
  [("url", "https://x"); ("uuid", "in-1")].
Definition sample_image_url : list (string * string) := [("url", "https://x")].
Definition sample_receipt_url : list (string * string) := [("url", "https://y")].
Definition sample_session : list (string * string) := [("uuid", "sess-1")].
Definition sample_status : list (string * string) := [("status", "RUNNING")].

Definition sample_known : list (list (string * string)) :=
  [sample_ticket; sample_image_url; sample_receipt_url; sample_session;
   sample_status].

(** A response transform that knows the JSON texts above and leaves any
    other body as text. *)
Fixpoint sample_parse (known : list (list (string * string)))
    (body : list byte) : JsValue :=
  match known with
  | [] => JsString (string_of_list_byte body)
  | fields :: rest =>
      if String.eqb (string_of_list_byte body)
                    (string_of_list_byte (json_text fields))
      then json_object fields
      else sample_parse rest body
  end.

Definition sample_ToString (v : JsValue) : string :=
  match v with
  | JsUndefined => "undefined"
  | JsNull => "null"
  | JsBool true => "true"
  | JsBool false => "false"
  | JsNumber NaN => "NaN"
  | JsNumber (Num z) => NilZero.string_of_int (Z.to_int z)
  | JsString s => s
  | JsArray _ => ""
  | JsObject _ => "[object Object]"
  | JsBytes _ => "[object ArrayBuffer]"
  | JsResponseLike _ => "[object Response]"
  end.

Definition sample_runtime : JsRuntime :=
  {| ToString := sample_ToString;
     JSON_stringify := fun v =>
       match v with
       | JsUndefined => JsUndefined
       | _ => JsString "{}"
       end;
     transformResponse := sample_parse sample_known |}.

Definition sample_receipt : list byte := ["001"; "002"; "003"]%byte.

Definition sample_server : Server := fun _ rq =>
  match req_method rq, req_url rq with
  | GET, JsString u =>
      if String.eqb u "https://api.example/inputs/upload" then
        Response 200 (json_text sample_ticket)
      else if String.eqb u "https://api.example/images/upload/img-old" then
        Response 204 []
      else if String.eqb u "https://api.example/images/upload/img-new" then
        Response 200 (json_text sample_image_url)
      else if String.eqb u "https://api.example/receipts/sess-1" then
        Response 200 (json_text sample_receipt_url)
      else if String.eqb u "https://api.example/receipts/sess-2" then
        Response 500 (list_byte_of_string "boom")
      else if String.eqb u "https://y" then
        Response 200 sample_receipt
      else if String.eqb u "https://api.example/sessions/status/sess-1" then
        Response 200 (json_text sample_status)
      else if String.eqb u "https://api.example/sessions/status/sess-2" then
        Response 500 (list_byte_of_string "boom")
      else if String.eqb u "https://api.example/snark/status/sess-2" then
        Response 500 (list_byte_of_string "boom")
      else Response 404 []
  | PUT, JsString u =>
      if String.eqb u "https://x" then Response 200 [] else Response 403 []
  | POST, JsString u =>
      if String.eqb u "https://api.example/sessions/create" then
        Response 200 (json_text sample_session)
      else Response 500 (list_byte_of_string "boom")
  | _, _ => Response 404 []
  end.

(** A server whose image check answers with a body object that has a
    [json()] method, as no axios transform produces. *)
Definition responselike_runtime : JsRuntime :=
  {| ToString := sample_ToString;
     JSON_stringify := fun _ => JsString "{}";
     transformResponse := fun body =>
       JsResponseLike (sample_parse sample_known body) |}.

Definition sample_env : Env :=
  <["REACT_APP_BONSAI_API_URL" := "https://api.example/"]>
    (<["VITE_BONSAI_API_URL" := "https://vite.example"]>
       (<["BONSAI_API_KEY" := "secret"]> ∅)).

Definition sample_session_2 : SessionId := {| uuid := JsString "sess-2" |}.
Definition sample_snark_2 : SnarkId := {| snark_uuid := JsString "sess-2" |}.

Definition sample_client : Client :=
  {| url := "https://api.example";
     client := constructReqClient sample_env "secret" "1.2.0" |}.

(** The same instance against a base URL whose routes all answer 500. *)
Definition down_client : Client :=
  {| url := "https://down.example";
     client := constructReqClient sample_env "secret" "1.2.0" |}.

(** A client around an instance that resolves every status, as the public
    constructor of [Client] admits. *)
Definition lenient_client : Client :=
  {| url := "https://api.example";
     client := {| timeout := None; headers := ∅;
                  validateStatus := fun _ => true |} |}.

(** A server given by a table of routes; any other request gets a 404. *)
Definition Method_eqb (a b : Method) : bool :=
  match a, b with
  | GET, GET | PUT, PUT | POST, POST | DELETE, DELETE => true
  | _, _ => false
  end.

Fixpoint route_lookup (m : Method) (u : string)
    (routes : list (Method * string * Outcome)) : option Outcome :=
  match routes with
  | [] => None
  | (m', u', o) :: rest =>
      if Method_eqb m m' && String.eqb u u' then Some o
      else route_lookup m u rest
  end.

Definition route_server (routes : list (Method * string * Outcome)) : Server :=
  fun _ rq =>
    match req_url rq with
    | JsString u => default (Response 404 []) (route_lookup (req_method rq) u routes)
    | _ => Response 404 []
    end.

Definition sample_versions : list (string * string) := [("risc0_zkvm", "1.2.0")].

Definition account_runtime : JsRuntime :=
  {| ToString := sample_ToString;
     JSON_stringify := fun v =>
       match v with
       | JsUndefined => JsUndefined
       | _ => JsString "{}"
       end;
     transformResponse := sample_parse (sample_versions :: sample_known) |}.

Definition account_routes : list (Method * string * Outcome) :=
  [ (GET, "https://api.example/version",
       Response 200 (json_text sample_versions));
    (GET, "https://api.example/user/quotas",
       Response 200 (json_text sample_versions));
    (GET, "https://api.example/sessions/logs/sess-1",
       Response 200 (list_byte_of_string "cycles: 42"));
    (GET, "https://api.example/sessions/logs/sess-3",
       Response 204 []);
    (GET, "https://api.example/sessions/logs/sess-2",
       Response 500 (list_byte_of_string "boom"));
    (GET, "https://api.example/sessions/stop/sess-1", Response 200 []);
    (GET, "https://api.example/sessions/stop/sess-3", Response 204 []);
    (GET, "https://api.example/sessions/stop/sess-2",
       Response 500 (list_byte_of_string "boom"));
    (DELETE, "https://api.example/images/img-1", Response 204 []);
    (DELETE, "https://api.example/images/img-2",
       Response 500 (list_byte_of_string "boom"));
    (DELETE, "https://api.example/inputs/in-1", Response 200 []);
    (DELETE, "https://api.example/inputs/in-2",
       Response 403 (list_byte_of_string "denied"));
    (DELETE, "https://api.example/inputs/in-3", NoResponse "Network Error");
    (POST, "https://api.example/snark/create",
       Response 200 (json_text sample_session));
    (GET, "https://api.example/inputs/upload",
       Response 200 (json_text sample_ticket));
    (GET, "https://api.example/receipts/upload",
       Response 200 (json_text sample_ticket));
    (PUT, "https://x", Response 200 []);
    (PUT, "https://full", Response 507 (list_byte_of_string "no space"));
    (PUT, "https://empty", Response 500 []);
    (PUT, "https://gone", NoResponse "timeout of 30000ms exceeded");
    (GET, "https://y", Response 200 sample_receipt);
    (GET, "https://gone", NoResponse "Network Error");
    (GET, "https://full", Response 403 (list_byte_of_string "denied")) ].

Definition account_server : Server := route_server account_routes.

(** Case analysis on the eight bits of a character. *)
Ltac each_ascii c :=
  destruct c as [[] [] [] [] [] [] [] []].

(** * Properties *)

(** ** Environment lookup *)

Lemma first_set_map_Some (env : Env) (f : string -> string) (l : list string)
    (v : string) :
  first_set env (map f l) = Some v <->
  exists pre p post,
    l = (pre ++ p :: post)%list /\
    Forall (fun q => env !! f q = None) pre /\
    env !! f p = Some v.
Proof.
  induction l as [|n l IH]; simpl.
  - split; [discriminate|].
    intros (pre & p & post & Hl & _). destruct pre; discriminate.
  - destruct (env !! f n) as [w|] eqn:Hn.
    + split.
      * intros [= ->]. exists [], n, l. repeat split; [constructor|done].
      * intros (pre & p & post & Hl & Hpre & Hp).
        destruct pre as [|q pre]; simpl in Hl; injection Hl as -> ->.
        -- congruence.
        -- inversion Hpre; congruence.
    + rewrite IH. split.
      * intros (pre & p & post & -> & Hpre & Hp).
        exists (n :: pre), p, post. repeat split; [constructor|]; done.
      * intros (pre & p & post & Hl & Hpre & Hp).
        destruct pre as [|q pre]; simpl in Hl; injection Hl as -> ->.
        -- congruence.
        -- exists pre, p, post. inversion Hpre; done.
Qed.

Lemma first_set_map_None (env : Env) (f : string -> string) (l : list string) :
  first_set env (map f l) = None <-> Forall (fun q => env !! f q = None) l.
Proof.
  induction l as [|n l IH]; simpl.
  - split; [constructor|done].
  - destruct (env !! f n) as [w|] eqn:Hn.
    + split; [discriminate|]. inversion 1; congruence.
    + rewrite IH. split; [by constructor|by inversion 1].
Qed.

Lemma getURL_probe (env : Env) :
  getURL env =
  match probe env API_URL_ENVVAR with
  | Some v => Return (Some v)
  | None => Throw (Error "bonsai sdk env variables are not set!")
  end.
Proof.
  unfold getURL, probe, prefix_order. cbn [map first_set].
  repeat (destruct (env !! _); [reflexivity|]; cbn [is_set]).
  reflexivity.
Qed.

Lemma getKey_probe (env : Env) :
  getKey env =
  match probe env API_KEY_ENVVAR with
  | Some v => Return (Some v)
  | None => Throw (Error "bonsai sdk env variables are not set!")
  end.
Proof.
  unfold getKey, probe, prefix_order. cbn [map first_set].
  repeat (destruct (env !! _); [reflexivity|]; cbn [is_set]).
  reflexivity.
Qed.

(** C2. For every environment snapshot, [getURL] and [getKey] return the
    value of the first variable that is set when the names are probed with
    the prefixes REACT_APP_, NEXT_PUBLIC_, GATSBY_, VUE_APP_, VITE_, PUBLIC_,
    NUXT_ENV_ and then bare, in that order; with both the REACT_APP_ and the
    VITE_ variant set, the REACT_APP_ value is returned. *)
Theorem env_lookup_priority (env : Env) :
  (forall v, getURL env = Return (Some v) <->
     exists pre p post,
       prefix_order = (pre ++ p :: post)%list /\
       Forall (fun q => env !! (q +:+ API_URL_ENVVAR) = None) pre /\
       env !! (p +:+ API_URL_ENVVAR) = Some v) /\
  (forall v, getKey env = Return (Some v) <->
     exists pre p post,
       prefix_order = (pre ++ p :: post)%list /\
       Forall (fun q => env !! (q +:+ API_KEY_ENVVAR) = None) pre /\
       env !! (p +:+ API_KEY_ENVVAR) = Some v) /\
  (forall a b,
     getURL (<["REACT_APP_BONSAI_API_URL" := a]>
               (<["VITE_BONSAI_API_URL" := b]> env)) = Return (Some a)) /\
  (forall a b,
     getKey (<["REACT_APP_BONSAI_API_KEY" := a]>
               (<["VITE_BONSAI_API_KEY" := b]> env)) = Return (Some a)).
Proof.
  repeat split.
  - rewrite getURL_probe. unfold probe. intros H.
    apply (first_set_map_Some env (fun p => p +:+ API_URL_ENVVAR)).
    destruct (first_set _ _); congruence.
  - intros H. rewrite getURL_probe. unfold probe.
    apply (first_set_map_Some env (fun p => p +:+ API_URL_ENVVAR)) in H.
    by rewrite H.
  - rewrite getKey_probe. unfold probe. intros H.
    apply (first_set_map_Some env (fun p => p +:+ API_KEY_ENVVAR)).
    destruct (first_set _ _); congruence.
  - intros H. rewrite getKey_probe. unfold probe.
    apply (first_set_map_Some env (fun p => p +:+ API_KEY_ENVVAR)) in H.
    by rewrite H.
  - intros a b. unfold getURL. cbn [String.append API_URL_ENVVAR].
    by rewrite lookup_insert_eq.
  - intros a b. unfold getKey. cbn [String.append API_KEY_ENVVAR].
    by rewrite lookup_insert_eq.
Qed.

Lemma fromEnv_probe (env : Env) (ver : string) :
  fromEnv env ver =
  match probe env API_URL_ENVVAR with
  | None => Throw (Error "bonsai sdk env variables are not set!")
  | Some "" => Throw (SdkErr "Missing API URL")
  | Some u =>
      match probe env API_KEY_ENVVAR with
      | None => Throw (Error "bonsai sdk env variables are not set!")
      | Some "" => Throw (SdkErr "Missing API Key")
      | Some k =>
          Return {| url := normalize u;
                    client := constructReqClient env k ver |}
      end
  end.
Proof.
  unfold fromEnv. rewrite getURL_probe, getKey_probe.
  destruct (probe env API_URL_ENVVAR) as [[|c u]|]; try reflexivity.
  destruct (probe env API_KEY_ENVVAR) as [[|d k]|]; reflexivity.
Qed.

(** C3, as amended.  When no variant of the API URL variable is set,
    [fromEnv] fails with the lookup's own [Error], whose message is "bonsai
    sdk env variables are not set!", and so it does when the URL resolves to
    a non-empty value and no variant of the API key variable is set.  The
    [SdkErr] with message "Missing API URL" (or "Missing API Key") is
    raised when the first variant that is set holds the empty string. *)
Theorem fromEnv_missing (env : Env) (ver : string) :
  (Forall (fun p => env !! (p +:+ API_URL_ENVVAR) = None) prefix_order ->
   fromEnv env ver = Throw (Error "bonsai sdk env variables are not set!")) /\
  (getURL env = Return (Some "") ->
   fromEnv env ver = Throw (SdkErr "Missing API URL")) /\
  (forall u, getURL env = Return (Some u) -> u <> "" ->
   Forall (fun p => env !! (p +:+ API_KEY_ENVVAR) = None) prefix_order ->
   fromEnv env ver = Throw (Error "bonsai sdk env variables are not set!")) /\
  (forall u, getURL env = Return (Some u) -> u <> "" ->
   getKey env = Return (Some "") ->
   fromEnv env ver = Throw (SdkErr "Missing API Key")).
Proof.
  repeat split.
  - intros H. rewrite fromEnv_probe.
    apply (first_set_map_None env (fun p => p +:+ API_URL_ENVVAR)) in H.
    unfold probe. by rewrite H.
  - intros H. unfold fromEnv. by rewrite H.
  - intros u Hu Hne H. unfold fromEnv. rewrite Hu.
    destruct u as [|c u]; [done|]. cbn [truthy_str negb].
    rewrite getKey_probe.
    apply (first_set_map_None env (fun p => p +:+ API_KEY_ENVVAR)) in H.
    unfold probe. by rewrite H.
  - intros u Hu Hne Hk. unfold fromEnv. rewrite Hu, Hk.
    destruct u as [|c u]; done.
Qed.

(** ** Timeout resolution *)

Lemma constructReqClient_timeout (env : Env) (key ver : string) :
  timeout (constructReqClient env key ver) =
  resolve_timeout (env !! TIMEOUT_ENVVAR).
Proof.
  unfold constructReqClient, resolve_timeout, axios_create. cbn [timeout].
  destruct (env !! TIMEOUT_ENVVAR) as [s|]; [|by case_decide].
  destruct (decide (s = "none")) as [->|Hs].
  - by rewrite decide_True.
  - rewrite decide_False by congruence.
    destruct s as [|c s]; [reflexivity|].
    cbn [truthy_str default]. by destruct (parseInt _ _).
Qed.

Lemma strip_sign_other (a : ascii) (r : string) :
  a <> "-"%char -> a <> "+"%char -> strip_sign (String a r) = (1, String a r).
Proof.
  intros Hm Hp. each_ascii a; try reflexivity; congruence.
Qed.

Lemma decimal_digit_class (c : ascii) :
  is_decimal_digit c = true ->
  is_StrWhiteSpaceChar c = false /\ radix_digit 10 c = Some (code c - 48) /\
  c <> "-"%char /\ c <> "+"%char.
Proof.
  each_ascii c; intros H; vm_compute in H; try discriminate H;
    repeat split; first [reflexivity | discriminate].
Qed.

Lemma digits_prefix_decimal (s : string) :
  all_decimal s = true ->
  digits_prefix 10 s = map (fun c => code c - 48) (list_ascii_of_string s).
Proof.
  induction s as [|c r IH]; [reflexivity|]. cbn [all_decimal].
  intros H. apply andb_prop in H as [Hc Hr].
  destruct (decimal_digit_class c Hc) as (_ & Hd & _).
  cbn [digits_prefix list_ascii_of_string map]. by rewrite Hd, IH.
Qed.

Lemma mathInt_fold (l : list ascii) (acc : Z) :
  fold_left (fun a d => a * 10 + d) (map (fun c => code c - 48) l) acc
  = fold_left (fun a c => a * 10 + (code c - 48)) l acc.
Proof.
  revert acc. induction l as [|c l IH]; intros acc; [reflexivity|].
  cbn [map fold_left]. apply IH.
Qed.

(** What "parsed as an integer" gives on a decimal numeral. *)
Lemma parseInt_decimal (s : string) :
  s <> "" -> all_decimal s = true -> parseInt s 10 = Num (decimal_value s).
Proof.
  intros Hne Hs. pose proof (digits_prefix_decimal s Hs) as Hd.
  destruct s as [|a r]; [done|]. cbn [all_decimal] in Hs.
  apply andb_prop in Hs as [Ha _].
  destruct (decimal_digit_class a Ha) as (Hw & _ & Hm & Hp).
  unfold parseInt. cbn [trimStart]. rewrite Hw.
  rewrite strip_sign_other by assumption.
  change ((10 =? 0) || (2 <=? 10) && (10 <=? 36)) with true.
  change ((10 =? 0) || (10 =? 16)) with false.
  change (if 10 =? 0 then 10 else 10) with 10. cbv iota.
  rewrite Hd. cbn [list_ascii_of_string map].
  unfold mathInt, decimal_value. cbn [list_ascii_of_string fold_left].
  rewrite mathInt_fold. f_equal. lia.
Qed.

(** C4. The timeout of a constructed client is: none when the timeout
    variable is the string "none"; 30000 when it is unset; otherwise the
    integer that [parseInt] reads off its value, and 30000 when it reads
    none ("5000" gives 5000, "abc" gives 30000). *)
Theorem timeout_resolution (env : Env) (u key ver : string) :
  timeout (constructReqClient env key ver)
    = resolve_timeout (env !! TIMEOUT_ENVVAR) /\
  (exists c, fromParts env u key ver = Return c /\
             timeout (client c) = resolve_timeout (env !! TIMEOUT_ENVVAR)) /\
  timeout (constructReqClient (<[TIMEOUT_ENVVAR := "none"]> env) key ver)
    = None /\
  timeout (constructReqClient (delete TIMEOUT_ENVVAR env) key ver)
    = Some (Num 30000) /\
  timeout (constructReqClient (<[TIMEOUT_ENVVAR := "5000"]> env) key ver)
    = Some (Num 5000) /\
  timeout (constructReqClient (<[TIMEOUT_ENVVAR := "abc"]> env) key ver)
    = Some (Num 30000) /\
  (forall s, s <> "none" ->
     timeout (constructReqClient (<[TIMEOUT_ENVVAR := s]> env) key ver)
       = Some (match parseInt s 10 with NaN => Num 30000 | Num n => Num n end)).
Proof.
  repeat split.
  - apply constructReqClient_timeout.
  - eexists. split; [reflexivity|]. apply constructReqClient_timeout.
  - by rewrite constructReqClient_timeout, lookup_insert_eq.
  - by rewrite constructReqClient_timeout, lookup_delete_eq.
  - by rewrite constructReqClient_timeout, lookup_insert_eq.
  - by rewrite constructReqClient_timeout, lookup_insert_eq.
  - intros s Hs. rewrite constructReqClient_timeout, lookup_insert_eq.
    unfold resolve_timeout. rewrite decide_False by done.
    by destruct (parseInt s 10).
Qed.

(** ** URL normalization *)

Lemma endsWith_slash_app (u : string) : endsWith_slash (u +:+ "/") = true.
Proof.
  induction u as [|c u IH]; [reflexivity|].
  cbn [String.append]. destruct u; [reflexivity|]. exact IH.
Qed.

Lemma slice_0_m1_app (u : string) (c : ascii) :
  slice_0_m1 (u +:+ String c "") = u.
Proof.
  induction u as [|d u IH]; [reflexivity|].
  destruct u as [|e u]; [reflexivity|].
  change (slice_0_m1 (String d (String e u) +:+ String c ""))
    with (String d (slice_0_m1 (String e u +:+ String c ""))).
  by rewrite IH.
Qed.

Lemma normalize_slash (u : string) : normalize (u +:+ "/") = u.
Proof. unfold normalize. by rewrite endsWith_slash_app, slice_0_m1_app. Qed.

Lemma normalize_id (u : string) : endsWith_slash u = false -> normalize u = u.
Proof. unfold normalize. by intros ->. Qed.

(** C9. Client construction strips exactly one trailing slash from the
    URL: [u/] always gives the base URL [u]; a [u] without trailing slash
    is kept, so [u/] and [u] then give the same client, whose base URL does
    not end in a slash.  This holds for [fromParts] and, when URL and key
    resolve to non-empty values, for [fromEnv]. *)
Theorem url_normalization (env : Env) (u key ver : string) :
  fromParts env (u +:+ "/") key ver
    = Return {| url := u; client := constructReqClient env key ver |} /\
  (endsWith_slash u = false ->
   fromParts env u key ver = fromParts env (u +:+ "/") key ver /\
   exists c, fromParts env u key ver = Return c /\ url c = u /\
             endsWith_slash (url c) = false) /\
  (key <> "" -> getKey env = Return (Some key) ->
   getURL env = Return (Some (u +:+ "/")) ->
   fromEnv env ver
     = Return {| url := u; client := constructReqClient env key ver |}) /\
  (key <> "" -> getKey env = Return (Some key) ->
   u <> "" -> endsWith_slash u = false ->
   getURL env = Return (Some u) ->
   fromEnv env ver
     = Return {| url := u; client := constructReqClient env key ver |}).
Proof.
  assert (Hparts : fromParts env (u +:+ "/") key ver
    = Return {| url := u; client := constructReqClient env key ver |}).
  { unfold fromParts. by rewrite endsWith_slash_app, slice_0_m1_app. }
  split; [exact Hparts|]. split; [|split].
  - intros Hs. split.
    + rewrite Hparts. unfold fromParts. rewrite Hs. reflexivity.
    + eexists. unfold fromParts. rewrite Hs. split; [reflexivity|]. by split.
  - intros Hk HK HU. unfold fromEnv. rewrite HU, HK.
    assert (truthy_str (Some (u +:+ "/")) = true) as -> by by destruct u.
    assert (truthy_str (Some key) = true) as -> by by destruct key.
    cbn [negb default from_option id]. by rewrite endsWith_slash_app, slice_0_m1_app.
  - intros Hk HK Hu Hs HU. unfold fromEnv. rewrite HU, HK.
    assert (truthy_str (Some u) = true) as -> by by destruct u.
    assert (truthy_str (Some key) = true) as -> by by destruct key.
    cbn [negb default from_option id]. by rewrite Hs.
Qed.

(** ** Hex decoding *)

Lemma hex_digit_class (c : ascii) :
  is_hex_digit c = true ->
  is_StrWhiteSpaceChar c = false /\ is_LineTerminator c = false /\
  radix_digit 16 c = Some (hex_value c).
Proof.
  each_ascii c; intros H; vm_compute in H; try discriminate H;
    repeat split; reflexivity.
Qed.

Lemma hex_digit_not_sign (c : ascii) :
  is_hex_digit c = true ->
  c <> "-"%char /\ c <> "+"%char /\ c <> "x"%char /\ c <> "X"%char.
Proof.
  each_ascii c; intros H; vm_compute in H; try discriminate H;
    repeat split; discriminate.
Qed.

Lemma hex_digit_range (c : ascii) :
  is_hex_digit c = true -> 0 <= hex_value c < 16.
Proof.
  each_ascii c; intros H; vm_compute in H; try discriminate H;
    vm_compute; split; first [discriminate | reflexivity].
Qed.

Lemma strip_0x_one (a : ascii) : strip_0x (String a "") = None.
Proof. each_ascii a; reflexivity. Qed.

Lemma strip_0x_other (a b : ascii) (r : string) :
  b <> "x"%char -> b <> "X"%char -> strip_0x (String a (String b r)) = None.
Proof.
  intros Hx HX. each_ascii a; try reflexivity;
    each_ascii b; try reflexivity; congruence.
Qed.

Lemma parseInt_hex_pair (a b : ascii) :
  is_hex_digit a = true -> is_hex_digit b = true ->
  parseInt (String a (String b "")) 16 = Num (16 * hex_value a + hex_value b).
Proof.
  intros Ha Hb.
  destruct (hex_digit_class a Ha) as (Hwa & _ & Hda).
  destruct (hex_digit_class b Hb) as (_ & _ & Hdb).
  destruct (hex_digit_not_sign a Ha) as (Hm & Hp & _).
  destruct (hex_digit_not_sign b Hb) as (_ & _ & Hx & HX).
  unfold parseInt. cbn [trimStart]. rewrite Hwa.
  rewrite strip_sign_other by assumption.
  change ((16 =? 0) || (2 <=? 16) && (16 <=? 36)) with true.
  change ((16 =? 0) || (16 =? 16)) with true. cbv iota.
  rewrite strip_0x_other by assumption.
  change (if 16 =? 0 then 10 else 16) with 16.
  cbn [digits_prefix]. rewrite Hda, Hdb.
  unfold mathInt. cbn [fold_left]. f_equal. lia.
Qed.

Lemma parseInt_hex_one (a : ascii) :
  is_hex_digit a = true -> parseInt (String a "") 16 = Num (hex_value a).
Proof.
  intros Ha.
  destruct (hex_digit_class a Ha) as (Hwa & _ & Hda).
  destruct (hex_digit_not_sign a Ha) as (Hm & Hp & _).
  unfold parseInt. cbn [trimStart]. rewrite Hwa.
  rewrite strip_sign_other by assumption.
  change ((16 =? 0) || (2 <=? 16) && (16 <=? 36)) with true.
  change ((16 =? 0) || (16 =? 16)) with true. cbv iota.
  rewrite strip_0x_one.
  change (if 16 =? 0 then 10 else 16) with 16.
  cbn [digits_prefix]. rewrite Hda.
  unfold mathInt. cbn [fold_left]. f_equal. lia.
Qed.

Lemma string_pair_ind (P : string -> Prop) :
  P "" -> (forall a, P (String a "")) ->
  (forall a b r, P r -> P (String a (String b r))) ->
  forall s, P s.
Proof.
  intros H0 H1 H2 s.
  assert (P s /\ forall a, P (String a s)) as [H _]; [|exact H].
  induction s as [|c s [IH1 IH2]]; split; auto.
Qed.

Lemma regex_pairs_hex (s : string) :
  is_hex s = true ->
  Uint8Array_from (map (fun b => parseInt b 16) (regex_pairs s)) = hex_decode s.
Proof.
  induction s as [|a|a b r IH] using string_pair_ind; [reflexivity| |].
  - cbn [is_hex]. rewrite andb_true_r. intros Ha.
    destruct (hex_digit_class a Ha) as (_ & Hla & _).
    cbn [regex_pairs]. rewrite Hla. cbn [map Uint8Array_from hex_decode].
    by rewrite parseInt_hex_one.
  - cbn [is_hex]. intros H.
    apply andb_prop in H as [Ha H]. apply andb_prop in H as [Hb Hr].
    destruct (hex_digit_class a Ha) as (_ & Hla & _).
    destruct (hex_digit_class b Hb) as (_ & Hlb & _).
    cbn [regex_pairs]. rewrite Hla, Hlb.
    unfold Uint8Array_from in *. cbn [map hex_decode].
    rewrite parseInt_hex_pair by assumption. cbn [ToUint8].
    by rewrite IH.
Qed.

Lemma regex_pairs_hex_nonempty (s : string) :
  s <> "" -> is_hex s = true -> regex_pairs s <> [].
Proof.
  destruct s as [|a r]; [done|]. intros _. cbn [is_hex]. intros H.
  apply andb_prop in H as [Ha Hr].
  destruct (hex_digit_class a Ha) as (_ & Hla & _).
  cbn [regex_pairs]. rewrite Hla.
  destruct r as [|b r]; [done|]. by destruct (is_LineTerminator b).
Qed.

Lemma fromHexString_hex (s : string) :
  s <> "" -> is_hex s = true -> fromHexString s = Return (hex_decode s).
Proof.
  intros Hne Hs. unfold fromHexString, match_pairs.
  pose proof (regex_pairs_hex_nonempty s Hne Hs) as Hn.
  pose proof (regex_pairs_hex s Hs) as Hd.
  destruct (regex_pairs s) as [|p l]; [done|]. by rewrite Hd.
Qed.

(** Two hex characters make one byte, the first one its high half. *)
Lemma Z_of_byte_of_Z (z : Z) : 0 <= z < 256 -> Z_of_byte (byte_of_Z z) = z.
Proof.
  intros Hz. unfold Z_of_byte, byte_of_Z. rewrite Z.mod_small by exact Hz.
  destruct (Byte.of_N (Z.to_N z)) as [b|] eqn:E.
  - apply Byte.to_of_N in E. cbn [default from_option id]. rewrite E. lia.
  - apply Byte.of_N_None_iff in E. lia.
Qed.

Lemma hex_pair_value (a b : ascii) :
  is_hex_digit a = true -> is_hex_digit b = true ->
  Z_of_byte (byte_of_Z (16 * hex_value a + hex_value b))
  = 16 * hex_value a + hex_value b.
Proof.
  intros Ha Hb. apply Z_of_byte_of_Z.
  pose proof (hex_digit_range a Ha). pose proof (hex_digit_range b Hb). lia.
Qed.

Lemma hex_decode_length (s : string) :
  Z.of_nat (length (hex_decode s)) = (Z.of_nat (String.length s) + 1) / 2.
Proof.
  induction s as [|a|a b r IH] using string_pair_ind; [reflexivity..|].
  cbn [hex_decode length String.length].
  rewrite !Nat2Z.inj_succ, IH.
  replace (Z.succ (Z.succ (Z.of_nat (String.length r))) + 1)
    with ((Z.of_nat (String.length r) + 1) + 1 * 2) by lia.
  rewrite Z.div_add by lia. lia.
Qed.

Lemma byte_of_Z_of_byte (b : byte) : byte_of_Z (Z_of_byte b) = b.
Proof. destruct b; reflexivity. Qed.

Lemma Uint8Array_from_Array_from (l : list byte) :
  Uint8Array_from (Array_from l) = l.
Proof.
  induction l as [|b l IH]; [reflexivity|].
  unfold Uint8Array_from, Array_from in *. cbn [map ToUint8].
  by rewrite byte_of_Z_of_byte, IH.
Qed.

Lemma shift_Array_from (l : list byte) :
  Uint8Array_from (shift (Array_from l)) = tail l.
Proof. destruct l as [|b l]; [reflexivity|]. apply Uint8Array_from_Array_from. Qed.

(** [null] is what the match gives exactly on the strings made of line
    terminators only, the empty string among them. *)
Lemma match_pairs_None (s : string) :
  match_pairs s = None <->
  forall c, In c (list_ascii_of_string s) -> is_LineTerminator c = true.
Proof.
  unfold match_pairs.
  assert (regex_pairs s = [] <->
          forall c, In c (list_ascii_of_string s) -> is_LineTerminator c = true)
    as <-.
  { induction s as [|a|a b r IH] using string_pair_ind.
    - split; [intros _ c []|done].
    - cbn. destruct (is_LineTerminator a) eqn:E.
      + split; [|done]. by intros _ c [<-|[]].
      + split; [done|]. intros H. specialize (H a (or_introl eq_refl)). congruence.
    - cbn [regex_pairs list_ascii_of_string].
      destruct (is_LineTerminator a) eqn:Ea.
      + destruct (is_LineTerminator b) eqn:Eb.
        * rewrite IH. split.
          -- intros H c [<-|[<-|Hc]]; auto.
          -- intros H c Hc. apply H. right. by right.
        * split.
          -- destruct r as [|d r']; [done|]. by destruct (is_LineTerminator d).
          -- intros H. specialize (H b (or_intror (or_introl eq_refl))). congruence.
      + split.
        * by destruct (is_LineTerminator b).
        * intros H. specialize (H a (or_introl eq_refl)). congruence. }
  destruct (regex_pairs s); split; congruence.
Qed.

(** ** The HTTP layer *)

Section MethodFacts.
Context {rt : JsRuntime}.
Variable server : Server.

Lemma axios_request_resolved {D : Type} (decode : list byte -> D)
    (inj : D -> JsValue) inst m u payload validate t s body :
  server t (request_of inst m u payload) = Response s body ->
  default (validateStatus inst) validate s = true ->
  axios_request server decode inj inst m u payload validate t =
  (Return {| status := s; data := decode body |},
   (t ++ [request_of inst m u payload])%list).
Proof.
  intros Hs Hv. unfold axios_request. rewrite Hs, Hv.
  by rewrite orb_true_r.
Qed.

Lemma axios_request_rejected {D : Type} (decode : list byte -> D)
    (inj : D -> JsValue) inst m u payload validate t s body :
  server t (request_of inst m u payload) = Response s body ->
  s <> 0 ->
  default (validateStatus inst) validate s = false ->
  axios_request server decode inj inst m u payload validate t =
  (Throw (AxiosError
            ("Request failed with status code " +:+ template (JsNumber (Num s)))
            (Some (s, inj (decode body)))),
   (t ++ [request_of inst m u payload])%list).
Proof.
  intros Hs H0 Hv. unfold axios_request. rewrite Hs, Hv.
  by apply Z.eqb_neq in H0 as ->.
Qed.

Lemma axios_request_failed {D : Type} (decode : list byte -> D)
    (inj : D -> JsValue) inst m u payload validate t msg :
  server t (request_of inst m u payload) = NoResponse msg ->
  axios_request server decode inj inst m u payload validate t =
  (Throw (AxiosError msg None), (t ++ [request_of inst m u payload])%list).
Proof. intros Hs. unfold axios_request. by rewrite Hs. Qed.

(** Every request leaves exactly one entry in the trace. *)
Lemma axios_request_trace {D : Type} (decode : list byte -> D)
    (inj : D -> JsValue) inst m u payload validate t :
  snd (axios_request server decode inj inst m u payload validate t) =
  (t ++ [request_of inst m u payload])%list.
Proof.
  unfold axios_request.
  destruct (server t _) as [msg|s body]; [reflexivity|].
  by destruct ((s =? 0) || _).
Qed.

(** *** putData *)

Lemma putData_ok (c : Client) (u body : JsValue) t s raw :
  server t (request_of (client c) PUT u body) = Response s raw ->
  validateStatus (client c) s = true ->
  not_2xx s = false ->
  putData server c u body t =
  (Return tt, (t ++ [request_of (client c) PUT u body])%list).
Proof.
  intros Hs Hv H2. unfold putData, try_catch, bind, axios_put.
  rewrite (axios_request_resolved _ _ _ _ _ _ _ _ _ _ Hs) by exact Hv.
  cbn [status]. unfold not_2xx in H2. by rewrite H2.
Qed.

(** *** getUploadUrl *)

Lemma getUploadUrl_ok (c : Client) (route : string) t raw :
  server t (request_of (client c) GET
              (JsString (url c +:+ "/" +:+ route +:+ "/upload")) JsUndefined)
    = Response 200 raw ->
  validateStatus (client c) 200 = true ->
  getUploadUrl server c route t =
  (Return (transformResponse raw),
   (t ++ [request_of (client c) GET
            (JsString (url c +:+ "/" +:+ route +:+ "/upload")) JsUndefined])%list).
Proof.
  intros Hs Hv. unfold getUploadUrl, bind, axios_get.
  by rewrite (axios_request_resolved _ _ _ _ _ _ _ _ _ _ Hs) by exact Hv.
Qed.

End MethodFacts.

(** ** uploadInput *)

Section UploadInput.
Context {rt : JsRuntime}.
Variable server : Server.

(** C1, as amended.  For every non-empty hex string, [uploadInput]
    decodes it at two hex characters per byte (a last unpaired character
    is a byte of its own), drops the first decoded byte and, when the
    inputs upload route answers 200 with a ticket and the PUT is accepted,
    PUTs exactly the remaining bytes to the ticket's URL, after the GET
    and as the only other request, and returns the ticket's identifier. *)
Theorem uploadInput_hex (c : Client) (encoded : string) (t : list Request)
    (ticket : list byte) (u id : JsValue) (s : Z) (raw : list byte) :
  let rq1 := request_of (client c) GET
               (JsString (url c +:+ "/inputs/upload")) JsUndefined in
  let rq2 := request_of (client c) PUT u
               (JsBytes (tail (hex_decode encoded))) in
  encoded <> "" ->
  is_hex encoded = true ->
  server t rq1 = Response 200 ticket ->
  get_prop (transformResponse ticket) "url" = Return u ->
  get_prop (transformResponse ticket) "uuid" = Return id ->
  server (t ++ [rq1])%list rq2 = Response s raw ->
  200 <= s < 300 ->
  validateStatus (client c) 200 = true ->
  validateStatus (client c) s = true ->
  fromHexString encoded = Return (hex_decode encoded) /\
  uploadInput server c encoded t = (Return id, (t ++ [rq1; rq2])%list).
Proof.
  intros rq1 rq2 Hne Hhex Hget Hurl Huuid Hput Hs Hv200 Hvs.
  pose proof (fromHexString_hex encoded Hne Hhex) as Hdec.
  split; [exact Hdec|].
  unfold uploadInput, bind, lift. rewrite Hdec, shift_Array_from.
  rewrite (getUploadUrl_ok server c "inputs" t ticket Hget Hv200).
  rewrite Hurl.
  rewrite (putData_ok server c u _ _ s raw Hput Hvs).
  - rewrite Huuid. by rewrite <- app_assoc.
  - unfold not_2xx. apply orb_false_intro; lia.
Qed.

(** C10. When the regular expression matches nothing in the input, as in
    the empty string, [uploadInput] throws a TypeError, which is none of
    the SDK's own errors, and no request has been issued. *)
Theorem uploadInput_no_match (c : Client) (encoded : string)
    (t : list Request) :
  match_pairs encoded = None ->
  exists msg,
    uploadInput server c encoded t = (Throw (TypeError msg), t) /\
    (forall m, TypeError msg <> SdkErr m) /\
    (forall m, TypeError msg <> InternalServerError m).
Proof.
  intros Hm. eexists. unfold uploadInput, bind, lift, fromHexString.
  rewrite Hm. by repeat split.
Qed.

End UploadInput.

(** ** Image upload *)

Section ImageUpload.
Context {rt : JsRuntime}.
Variable server : Server.

(** A 204 gives "Exists", and [uploadImg] returns [true] after that one
    request. *)
Lemma uploadImg_exists (c : Client) (imageId : string) (buf raw : list byte)
    (t : list Request) :
  server t (image_check c imageId) = Response 204 raw ->
  validateStatus (client c) 204 = true ->
  getImageUploadUrl server c imageId t
    = (Return Exists, (t ++ [image_check c imageId])%list) /\
  uploadImg server c imageId buf t
    = (Return true, (t ++ [image_check c imageId])%list).
Proof.
  intros Hs Hv.
  assert (getImageUploadUrl server c imageId t
          = (Return Exists, (t ++ [image_check c imageId])%list)) as H.
  { unfold getImageUploadUrl, bind, axios_get.
    by rewrite (axios_request_resolved _ _ _ _ _ _ _ _ _ _ _ Hs) by exact Hv. }
  split; [exact H|]. unfold uploadImg, bind. by rewrite H.
Qed.

(** A 200 reaches [res.data.json()].  On a body object that has the
    method, "New" carries what it resolves to, and [uploadImg] PUTs the
    buffer once to its [url] and returns [false]. *)
Lemma uploadImg_new_responselike (c : Client) (imageId : string)
    (buf raw raw2 : list byte) (payload u : JsValue) (s : Z)
    (t : list Request) :
  let rq2 := request_of (client c) PUT u (JsBytes buf) in
  server t (image_check c imageId) = Response 200 raw ->
  validateStatus (client c) 200 = true ->
  transformResponse raw = JsResponseLike payload ->
  get_prop payload "url" = Return u ->
  server (t ++ [image_check c imageId])%list rq2 = Response s raw2 ->
  validateStatus (client c) s = true ->
  not_2xx s = false ->
  getImageUploadUrl server c imageId t
    = (Return (New payload), (t ++ [image_check c imageId])%list) /\
  uploadImg server c imageId buf t
    = (Return false, (t ++ [image_check c imageId; rq2])%list).
Proof.
  intros rq2 Hs Hv Hd Hu Hput Hvs H2.
  assert (getImageUploadUrl server c imageId t
          = (Return (New payload), (t ++ [image_check c imageId])%list)) as H.
  { unfold getImageUploadUrl, bind, axios_get, lift.
    rewrite (axios_request_resolved _ _ _ _ _ _ _ _ _ _ _ Hs) by exact Hv.
    cbn [status data]. by rewrite Hd. }
  split; [exact H|]. unfold uploadImg, bind, lift. rewrite H, Hu.
  rewrite (putData_ok server c u _ _ s raw2 Hput Hvs H2).
  by rewrite <- app_assoc.
Qed.

(** On decoded JSON, a string or a buffer there is no such method: the
    call throws a TypeError, no outcome is returned and nothing is PUT. *)
Lemma uploadImg_new_decoded (c : Client) (imageId : string)
    (buf raw : list byte) (t : list Request) :
  server t (image_check c imageId) = Response 200 raw ->
  validateStatus (client c) 200 = true ->
  (forall payload, transformResponse raw <> JsResponseLike payload) ->
  exists msg,
    getImageUploadUrl server c imageId t
      = (Throw (TypeError msg), (t ++ [image_check c imageId])%list) /\
    uploadImg server c imageId buf t
      = (Throw (TypeError msg), (t ++ [image_check c imageId])%list).
Proof.
  intros Hs Hv Hd.
  assert (exists msg, call_json (transformResponse raw) = Throw (TypeError msg))
    as [msg Hmsg].
  { destruct (transformResponse raw) as [| | | | | | | |p] eqn:E;
      try (eexists; reflexivity).
    by destruct (Hd p). }
  exists msg.
  assert (getImageUploadUrl server c imageId t
          = (Throw (TypeError msg), (t ++ [image_check c imageId])%list)) as H.
  { unfold getImageUploadUrl, bind, axios_get, lift.
    rewrite (axios_request_resolved _ _ _ _ _ _ _ _ _ _ _ Hs) by exact Hv.
    cbn [status data]. by rewrite Hmsg. }
  split; [exact H|]. unfold uploadImg, bind. by rewrite H.
Qed.

(** A status that [validateStatus] accepts and that is neither 204 nor
    200 raises the [InternalServerError] with the body. *)
Lemma getImageUploadUrl_other_accepted (c : Client) (imageId : string)
    (raw : list byte) (s : Z) (t : list Request) :
  server t (image_check c imageId) = Response s raw ->
  validateStatus (client c) s = true ->
  s <> 204 -> s <> 200 ->
  getImageUploadUrl server c imageId t
    = (Throw (InternalServerError
                ("Internal server error: " +:+ template (transformResponse raw))),
       (t ++ [image_check c imageId])%list).
Proof.
  intros Hs Hv H204 H200. unfold getImageUploadUrl, bind, axios_get.
  rewrite (axios_request_resolved _ _ _ _ _ _ _ _ _ _ _ Hs) by exact Hv.
  cbn [status data].
  apply Z.eqb_neq in H204 as ->. by apply Z.eqb_neq in H200 as ->.
Qed.

(** A status that [validateStatus] refuses never reaches the status test:
    the request itself rejects with the [AxiosError]. *)
Lemma getImageUploadUrl_rejected (c : Client) (imageId : string)
    (raw : list byte) (s : Z) (t : list Request) :
  server t (image_check c imageId) = Response s raw ->
  s <> 0 ->
  validateStatus (client c) s = false ->
  getImageUploadUrl server c imageId t
    = (Throw (AxiosError
                ("Request failed with status code " +:+ template (JsNumber (Num s)))
                (Some (s, transformResponse raw))),
       (t ++ [image_check c imageId])%list).
Proof.
  intros Hs H0 Hv. unfold getImageUploadUrl, bind, axios_get.
  by rewrite (axios_request_rejected _ _ _ _ _ _ _ _ _ _ _ Hs) by done.
Qed.

End ImageUpload.

(** ** Receipt download *)

Section ReceiptDownload.
Context {rt : JsRuntime}.
Variable server : Server.

Lemma download_outcome (c : Client) (u : JsValue) (t : list Request) :
  (exists raw, fst (download server c u t) = Return raw) \/
  (exists m, fst (download server c u t)
             = Throw (SdkErr ("Download failed: " +:+ m))).
Proof.
  unfold download, try_catch, bind, axios_get_arraybuffer, axios_request.
  destruct (server t _) as [msg|s raw]; [right; by eexists|].
  destruct ((s =? 0) || _); [left|right]; by eexists.
Qed.

Lemma download_ok (c : Client) (u : JsValue) (t : list Request) s raw :
  server t (request_of (client c) GET u JsUndefined) = Response s raw ->
  validateStatus (client c) s = true ->
  download server c u t
    = (Return raw, (t ++ [request_of (client c) GET u JsUndefined])%list).
Proof.
  intros Hs Hv. unfold download, try_catch, bind, axios_get_arraybuffer.
  by rewrite (axios_request_resolved _ _ _ _ _ _ _ _ _ _ _ Hs) by exact Hv.
Qed.

(** C6. [receiptDownload] raises the [SdkErr] "ReceiptNotFound", which is
    no [InternalServerError], exactly when the lookup answers 404; any
    other status outside 200..299 raises the [InternalServerError] with
    the body; a status inside, with a [url] in the body, is followed by a
    GET to that URL, whose accepted response's bytes are returned as they
    are. *)
Theorem receiptDownload_outcomes (c : Client) (sessionId : SessionId)
    (t : list Request) :
  let rq := receipt_lookup c sessionId in
  (fst (receiptDownload server c sessionId t)
     = Throw (SdkErr "ReceiptNotFound")
   <-> exists body, server t rq = Response 404 body) /\
  (forall m, SdkErr "ReceiptNotFound" <> InternalServerError m) /\
  (forall body, server t rq = Response 404 body ->
     receiptDownload server c sessionId t
       = (Throw (SdkErr "ReceiptNotFound"), (t ++ [rq])%list)) /\
  (forall s body, server t rq = Response s body ->
     not_2xx s = true -> s <> 404 ->
     receiptDownload server c sessionId t
       = (Throw (InternalServerError
                   ("Internal server error: "
                    +:+ template (body_text (transformResponse body)))),
          (t ++ [rq])%list)) /\
  (forall s body u s2 raw, server t rq = Response s body ->
     not_2xx s = false ->
     get_prop (transformResponse body) "url" = Return u ->
     server (t ++ [rq])%list (request_of (client c) GET u JsUndefined)
       = Response s2 raw ->
     validateStatus (client c) s2 = true ->
     receiptDownload server c sessionId t
       = (Return raw,
          (t ++ [rq; request_of (client c) GET u JsUndefined])%list)).
Proof.
  intros rq.
  assert (H404 : forall body, server t rq = Response 404 body ->
     receiptDownload server c sessionId t
       = (Throw (SdkErr "ReceiptNotFound"), (t ++ [rq])%list)).
  { intros body Hs. unfold receiptDownload, bind, axios_get.
    by rewrite (axios_request_resolved _ _ _ _ _ _ _ _ _ _ _ Hs). }
  split; [|split; [done|split; [exact H404|split]]].
  - split; [|intros [body Hs]; by rewrite (H404 body Hs)].
    unfold receiptDownload, bind, axios_get, axios_request.
    fold (receipt_lookup c sessionId). fold rq.
    destruct (server t rq) as [msg|s body]; [done|].
    cbn [default from_option id]. rewrite orb_true_r. cbn [status data].
    destruct ((s <? 200) || (s >=? 300)).
    + destruct (s =? 404) eqn:E; [|done].
      apply Z.eqb_eq in E as ->. intros _. by exists body.
    + unfold lift.
      destruct (get_prop (transformResponse body) "url") as [u|e] eqn:Hu.
      * destruct (download_outcome c u (t ++ [rq])%list) as [[raw H]|[m H]];
          rewrite H; done.
      * cbn [fst]. intros [= ->].
        by destruct (transformResponse body).
  - intros s body Hs H2 H4. unfold receiptDownload, bind, axios_get.
    rewrite (axios_request_resolved _ _ _ _ _ _ _ _ _ _ _ Hs) by done.
    cbn [status data]. unfold not_2xx in H2. rewrite H2.
    by apply Z.eqb_neq in H4 as ->.
  - intros s body u s2 raw Hs H2 Hu Hs2 Hv.
    unfold receiptDownload, bind, axios_get, lift.
    rewrite (axios_request_resolved _ _ _ _ _ _ _ _ _ _ _ Hs) by done.
    cbn [status data]. unfold not_2xx in H2. rewrite H2, Hu.
    fold (receipt_lookup c sessionId). fold rq.
    rewrite (download_ok c u _ s2 raw Hs2 Hv). by rewrite <- app_assoc.
Qed.

End ReceiptDownload.

(** ** Status of a session or SNARK *)

Section Status.
Context {rt : JsRuntime}.
Variable server : Server.

(** On a 200 the decoded body is returned as it is, whatever its fields. *)
Lemma SessionId_status_200 (self : SessionId) (c : Client) (t : list Request)
    (raw : list byte) :
  server t (session_status_request self c) = Response 200 raw ->
  validateStatus (client c) 200 = true ->
  SessionId_status server self c t
    = (Return (transformResponse raw),
       (t ++ [session_status_request self c])%list).
Proof.
  intros Hs Hv. unfold SessionId_status, bind, axios_get.
  by rewrite (axios_request_resolved _ _ _ _ _ _ _ _ _ _ _ Hs) by exact Hv.
Qed.

Lemma SnarkId_status_200 (self : SnarkId) (c : Client) (t : list Request)
    (raw : list byte) :
  server t (snark_status_request self c) = Response 200 raw ->
  validateStatus (client c) 200 = true ->
  SnarkId_status server self c t
    = (Return (transformResponse raw),
       (t ++ [snark_status_request self c])%list).
Proof.
  intros Hs Hv. unfold SnarkId_status, bind, axios_get.
  by rewrite (axios_request_resolved _ _ _ _ _ _ _ _ _ _ _ Hs) by exact Hv.
Qed.

(** A status other than 200 that the instance accepts raises the
    [InternalServerError] with the body. *)
Lemma SessionId_status_accepted_other (self : SessionId) (c : Client)
    (t : list Request) (s : Z) (raw : list byte) :
  server t (session_status_request self c) = Response s raw ->
  validateStatus (client c) s = true ->
  s <> 200 ->
  SessionId_status server self c t
    = (Throw (InternalServerError
                ("Internal server error: " +:+ template (transformResponse raw))),
       (t ++ [session_status_request self c])%list).
Proof.
  intros Hs Hv H2. unfold SessionId_status, bind, axios_get.
  rewrite (axios_request_resolved _ _ _ _ _ _ _ _ _ _ _ Hs) by exact Hv.
  cbn [status data]. by apply Z.eqb_neq in H2 as ->.
Qed.

(** A status that the instance refuses rejects the request: the
    [AxiosError] leaves [status] before its test of the status runs. *)
Lemma SessionId_status_rejected (self : SessionId) (c : Client)
    (t : list Request) (s : Z) (raw : list byte) :
  server t (session_status_request self c) = Response s raw ->
  s <> 0 ->
  validateStatus (client c) s = false ->
  SessionId_status server self c t
    = (Throw (AxiosError
                ("Request failed with status code " +:+ template (JsNumber (Num s)))
                (Some (s, transformResponse raw))),
       (t ++ [session_status_request self c])%list).
Proof.
  intros Hs H0 Hv. unfold SessionId_status, bind, axios_get.
  by rewrite (axios_request_rejected _ _ _ _ _ _ _ _ _ _ _ Hs) by done.
Qed.

Lemma SnarkId_status_rejected (self : SnarkId) (c : Client)
    (t : list Request) (s : Z) (raw : list byte) :
  server t (snark_status_request self c) = Response s raw ->
  s <> 0 ->
  validateStatus (client c) s = false ->
  SnarkId_status server self c t
    = (Throw (AxiosError
                ("Request failed with status code " +:+ template (JsNumber (Num s)))
                (Some (s, transformResponse raw))),
       (t ++ [snark_status_request self c])%list).
Proof.
  intros Hs H0 Hv. unfold SnarkId_status, bind, axios_get.
  by rewrite (axios_request_rejected _ _ _ _ _ _ _ _ _ _ _ Hs) by done.
Qed.

End Status.

(** The instance that [constructReqClient] builds refuses every status
    outside 200..299. *)
Lemma constructReqClient_validateStatus (env : Env) (key ver : string) (s : Z) :
  validateStatus (constructReqClient env key ver) s = negb (not_2xx s).
Proof.
  unfold constructReqClient, axios_create, not_2xx. cbn [validateStatus].
  unfold axios_default_validateStatus. lia.
Qed.

(** So, on a client built on [constructReqClient], a status outside
    200..299 never raises the [InternalServerError] of [status()]. *)
Lemma SessionId_status_built_client {rt : JsRuntime} (server : Server)
    (env : Env) (u key ver : string) (self : SessionId) (t : list Request)
    (s : Z) (raw : list byte) :
  let c := {| url := u; client := constructReqClient env key ver |} in
  server t (session_status_request self c) = Response s raw ->
  s <> 0 -> not_2xx s = true ->
  forall m, fst (SessionId_status server self c t)
            <> Throw (InternalServerError m).
Proof.
  intros c Hs H0 H2 m.
  rewrite (SessionId_status_rejected server self c t s raw Hs H0).
  - discriminate.
  - cbn [client c]. by rewrite constructReqClient_validateStatus, H2.
Qed.

(** ** Session creation *)

Section CreateSession.
Context {rt : JsRuntime}.
Variable server : Server.

(** [createSession] is [createSessionWithLimit] without a cycle limit. *)
Lemma createSession_eq (c : Client) (imgId inputId : string)
    (assumptions : list string) (executeOnly : bool) (t : list Request) :
  createSession server c imgId inputId assumptions executeOnly t
  = createSessionWithLimit server c imgId inputId assumptions executeOnly
      None t.
Proof.
  unfold createSession, bind, ret.
  by destruct (createSessionWithLimit _ _ _ _ _ _ _ _) as [[sid|e] t'].
Qed.

Lemma createSessionWithLimit_created (c : Client) (imgId inputId : string)
    (assumptions : list string) (executeOnly : bool)
    (limit : option Number) (t : list Request) (s : Z) (raw : list byte)
    (id : JsValue) :
  let rq := session_create_request c imgId inputId assumptions executeOnly
              limit in
  server t rq = Response s raw ->
  validateStatus (client c) s = true ->
  not_2xx s = false ->
  get_prop (transformResponse raw) "uuid" = Return id ->
  createSessionWithLimit server c imgId inputId assumptions executeOnly
    limit t = (Return {| uuid := id |}, (t ++ [rq])%list).
Proof.
  intros rq Hs Hv H2 Hid. unfold createSessionWithLimit, bind, axios_post, lift.
  rewrite (axios_request_resolved _ _ _ _ _ _ _ _ _ _ _ Hs) by exact Hv.
  cbn [status data]. unfold not_2xx in H2. by rewrite H2, Hid.
Qed.

Lemma createSessionWithLimit_accepted_not_2xx (c : Client)
    (imgId inputId : string) (assumptions : list string)
    (executeOnly : bool) (limit : option Number) (t : list Request)
    (s : Z) (raw : list byte) :
  let rq := session_create_request c imgId inputId assumptions executeOnly
              limit in
  server t rq = Response s raw ->
  validateStatus (client c) s = true ->
  not_2xx s = true ->
  createSessionWithLimit server c imgId inputId assumptions executeOnly
    limit t
  = (Throw (InternalServerError
              ("Internal server error: "
               +:+ template (body_text (transformResponse raw)))),
     (t ++ [rq])%list).
Proof.
  intros rq Hs Hv H2. unfold createSessionWithLimit, bind, axios_post.
  rewrite (axios_request_resolved _ _ _ _ _ _ _ _ _ _ _ Hs) by exact Hv.
  cbn [status data]. unfold not_2xx in H2. by rewrite H2.
Qed.

Lemma createSessionWithLimit_rejected (c : Client)
    (imgId inputId : string) (assumptions : list string)
    (executeOnly : bool) (limit : option Number) (t : list Request)
    (s : Z) (raw : list byte) :
  let rq := session_create_request c imgId inputId assumptions executeOnly
              limit in
  server t rq = Response s raw ->
  s <> 0 ->
  validateStatus (client c) s = false ->
  createSessionWithLimit server c imgId inputId assumptions executeOnly
    limit t
  = (Throw (AxiosError
              ("Request failed with status code " +:+ template (JsNumber (Num s)))
              (Some (s, transformResponse raw))),
     (t ++ [rq])%list).
Proof.
  intros rq Hs H0 Hv. unfold createSessionWithLimit, bind, axios_post.
  by rewrite (axios_request_rejected _ _ _ _ _ _ _ _ _ _ _ Hs) by done.
Qed.

End CreateSession.

(** On a client built on [constructReqClient], a creation answered outside
    200..299 rejects in axios; the [InternalServerError] is never raised. *)
Lemma createSession_built_client {rt : JsRuntime} (server : Server)
    (env : Env) (u key ver imgId inputId : string)
    (assumptions : list string) (executeOnly : bool) (t : list Request)
    (s : Z) (raw : list byte) :
  let c := {| url := u; client := constructReqClient env key ver |} in
  server t (session_create_request c imgId inputId assumptions executeOnly None)
    = Response s raw ->
  s <> 0 -> not_2xx s = true ->
  forall m, fst (createSession server c imgId inputId assumptions executeOnly t)
            <> Throw (InternalServerError m).
Proof.
  intros c Hs H0 H2 m. rewrite createSession_eq.
  rewrite (createSessionWithLimit_rejected server c _ _ _ _ None t s raw Hs H0).
  - discriminate.
  - cbn [client c]. by rewrite constructReqClient_validateStatus, H2.
Qed.

(** * The properties on the sample server *)

Lemma fromParts_sample :
  fromParts sample_env "https://api.example/" "secret" "1.2.0"
    = Return sample_client /\
  fromEnv sample_env "1.2.0" = Return sample_client.
Proof. split; reflexivity. Qed.

(** ** Environment *)

Lemma env_lookup_priority_witness :
  getURL sample_env = Return (Some "https://api.example/") /\
  getKey sample_env = Return (Some "secret").
Proof.
  split.
  - apply (proj1 (env_lookup_priority sample_env)).
    exists [], "REACT_APP_",
      ["NEXT_PUBLIC_"; "GATSBY_"; "VUE_APP_"; "VITE_"; "PUBLIC_"; "NUXT_ENV_"; ""].
    split; [reflexivity|]. split; [constructor|reflexivity].
  - apply (proj1 (proj2 (env_lookup_priority sample_env))).
    exists ["REACT_APP_"; "NEXT_PUBLIC_"; "GATSBY_"; "VUE_APP_"; "VITE_";
            "PUBLIC_"; "NUXT_ENV_"], "", [].
    split; [reflexivity|]. split; [|reflexivity].
    repeat constructor.
Defined.

(** C3, the claim as stated fails: with nothing set, [fromEnv] throws the
    lookup's [Error] and not the [SdkErr] "Missing API URL"; with only a
    URL set, it throws the same [Error] and not "Missing API Key". *)
Lemma fromEnv_unset_counterexample :
  Forall (fun p => (∅ : Env) !! (p +:+ API_URL_ENVVAR) = None) prefix_order /\
  fromEnv ∅ "1.2.0" = Throw (Error "bonsai sdk env variables are not set!") /\
  fromEnv ∅ "1.2.0" <> Throw (SdkErr "Missing API URL") /\
  fromEnv (<["BONSAI_API_URL" := "https://api.example"]> ∅) "1.2.0"
    = Throw (Error "bonsai sdk env variables are not set!") /\
  fromEnv (<["BONSAI_API_URL" := "https://api.example"]> ∅) "1.2.0"
    <> Throw (SdkErr "Missing API Key").
Proof.
  split; [repeat constructor|].
  split; [reflexivity|]. split; [discriminate|].
  split; [reflexivity|discriminate].
Qed.

Lemma fromEnv_missing_witness :
  fromEnv ∅ "1.2.0" = Throw (Error "bonsai sdk env variables are not set!") /\
  fromEnv (<["VITE_BONSAI_API_URL" := ""]> ∅) "1.2.0"
    = Throw (SdkErr "Missing API URL") /\
  fromEnv (<["BONSAI_API_URL" := "https://api.example"]> ∅) "1.2.0"
    = Throw (Error "bonsai sdk env variables are not set!") /\
  fromEnv (<["BONSAI_API_URL" := "https://api.example"]>
             (<["PUBLIC_BONSAI_API_KEY" := ""]> ∅)) "1.2.0"
    = Throw (SdkErr "Missing API Key").
Proof.
  split; [|split; [|split]].
  - apply (proj1 (fromEnv_missing ∅ "1.2.0")). repeat constructor.
  - apply (proj1 (proj2 (fromEnv_missing _ "1.2.0"))). reflexivity.
  - apply (proj1 (proj2 (proj2 (fromEnv_missing _ "1.2.0")))
             "https://api.example"); [reflexivity|discriminate|].
    repeat constructor.
  - apply (proj2 (proj2 (proj2 (fromEnv_missing _ "1.2.0")))
             "https://api.example"); [reflexivity|discriminate|reflexivity].
Defined.

Lemma timeout_resolution_witness :
  timeout (constructReqClient (<[TIMEOUT_ENVVAR := "250"]> ∅) "secret" "1.2.0")
    = Some (Num 250) /\
  timeout (constructReqClient (<[TIMEOUT_ENVVAR := " 12px"]> ∅) "secret" "1.2.0")
    = Some (Num 12) /\
  timeout (constructReqClient (<[TIMEOUT_ENVVAR := ""]> ∅) "secret" "1.2.0")
    = Some (Num 30000).
Proof.
  pose proof (timeout_resolution ∅ "https://api.example" "secret" "1.2.0")
    as (_ & _ & _ & _ & _ & _ & H).
  split; [|split].
  - apply (H "250"). discriminate.
  - apply (H " 12px"). discriminate.
  - apply (H ""). discriminate.
Defined.

Lemma url_normalization_witness :
  fromParts sample_env "https://api.example/" "secret" "1.2.0"
    = fromParts sample_env "https://api.example" "secret" "1.2.0" /\
  fromParts sample_env "https://api.example" "secret" "1.2.0"
    = Return sample_client /\
  fromEnv sample_env "1.2.0" = Return sample_client /\
  endsWith_slash (url sample_client) = false.
Proof.
  pose proof (url_normalization sample_env "https://api.example" "secret" "1.2.0")
    as (H1 & H2 & H3 & _).
  destruct (H2 eq_refl) as (H2a & c & H2b & H2c & H2d).
  split; [symmetry; exact H2a|].
  split; [rewrite H2a; exact H1|].
  split; [|reflexivity].
  apply H3; [discriminate|reflexivity|reflexivity].
Defined.

(** ** uploadInput *)

(** C1, the claim as stated fails: the empty string is a hex string, the
    inputs route would answer, and [uploadInput] throws before any request,
    so nothing is PUT and no identifier is returned. *)
Lemma uploadInput_empty_counterexample :
  is_hex "" = true /\
  sample_server [] (upload_ticket_request sample_client "inputs")
    = Response 200 (json_text sample_ticket) /\
  uploadInput (rt := sample_runtime) sample_server sample_client "" []
    = (Throw (TypeError "Cannot read properties of null (reading 'map')"), []) /\
  forall id t,
    uploadInput (rt := sample_runtime) sample_server sample_client "" []
      <> (Return id, t).
Proof. repeat split; discriminate. Qed.

Lemma uploadInput_hex_witness :
  fromHexString "00ff00" = Return [x00; xff; x00] /\
  uploadInput (rt := sample_runtime) sample_server sample_client "00ff00" []
    = (Return (JsString "in-1"),
       [ request_of (client sample_client) GET
           (JsString "https://api.example/inputs/upload") JsUndefined;
         request_of (client sample_client) PUT
           (JsString "https://x") (JsBytes [xff; x00]) ]).
Proof.
  apply (uploadInput_hex (rt := sample_runtime) sample_server sample_client
           "00ff00" [] (json_text sample_ticket) (JsString "https://x")
           (JsString "in-1") 200 []);
    first [discriminate | reflexivity | lia].
Defined.

Lemma uploadInput_no_match_witness :
  match_pairs "" = None /\
  exists msg,
    uploadInput (rt := sample_runtime) sample_server sample_client "" []
      = (Throw (TypeError msg), []) /\
    (forall m, TypeError msg <> SdkErr m) /\
    (forall m, TypeError msg <> InternalServerError m).
Proof.
  split; [reflexivity|].
  apply (uploadInput_no_match (rt := sample_runtime) sample_server
           sample_client "" []).
  reflexivity.
Defined.

(** ** Receipt download *)

Lemma receiptDownload_outcomes_witness :
  receiptDownload (rt := sample_runtime) sample_server sample_client
    {| uuid := JsString "sess-1" |} []
    = (Return sample_receipt,
       [ request_of (client sample_client) GET
           (JsString "https://api.example/receipts/sess-1") JsUndefined;
         request_of (client sample_client) GET
           (JsString "https://y") JsUndefined ]) /\
  receiptDownload (rt := sample_runtime) sample_server sample_client
    {| uuid := JsString "sess-9" |} []
    = (Throw (SdkErr "ReceiptNotFound"),
       [ request_of (client sample_client) GET
           (JsString "https://api.example/receipts/sess-9") JsUndefined ]) /\
  receiptDownload (rt := sample_runtime) sample_server sample_client
    {| uuid := JsString "sess-2" |} []
    = (Throw (InternalServerError "Internal server error: boom"),
       [ request_of (client sample_client) GET
           (JsString "https://api.example/receipts/sess-2") JsUndefined ]).
Proof.
  split; [|split].
  - pose proof (receiptDownload_outcomes (rt := sample_runtime) sample_server
                  sample_client {| uuid := JsString "sess-1" |} [])
      as (_ & _ & _ & _ & H).
    apply (H 200 (json_text sample_receipt_url) (JsString "https://y") 200
             sample_receipt); reflexivity.
  - pose proof (receiptDownload_outcomes (rt := sample_runtime) sample_server
                  sample_client {| uuid := JsString "sess-9" |} [])
      as (_ & _ & H & _).
    apply (H []). reflexivity.
  - pose proof (receiptDownload_outcomes (rt := sample_runtime) sample_server
                  sample_client {| uuid := JsString "sess-2" |} [])
      as (_ & _ & _ & H & _).
    apply (H 500 (list_byte_of_string "boom")); [reflexivity|reflexivity|lia].
Defined.

(** ** Where the code leaves the documented behaviour *)

(** C5, at the failing input.  The image check answers 200 with the JSON
    text of an object with a [url]: [getImageUploadUrl] calls [json()] on
    the decoded object and throws a TypeError, so no "New" outcome is
    returned and [uploadImg] PUTs nothing.  (A 204 gives "Exists" and
    [true].)  Against a base URL that answers 500, the request rejects with
    the [AxiosError] of axios and not with the [InternalServerError]. *)
Theorem uploadImg_new_image_TypeError :
  sample_server [] (image_check sample_client "img-new")
    = Response 200 (json_text sample_image_url) /\
  transformResponse (JsRuntime := sample_runtime) (json_text sample_image_url)
    = JsObject [("url", JsString "https://x")] /\
  getImageUploadUrl (rt := sample_runtime) sample_server sample_client
    "img-new" []
    = (Throw (TypeError "res.data.json is not a function"),
       [image_check sample_client "img-new"]) /\
  uploadImg (rt := sample_runtime) sample_server sample_client
    "img-new" [x01; x02] []
    = (Throw (TypeError "res.data.json is not a function"),
       [image_check sample_client "img-new"]) /\
  uploadImg (rt := sample_runtime) sample_server sample_client
    "img-old" [x01; x02] []
    = (Return true, [image_check sample_client "img-old"]) /\
  getImageUploadUrl (rt := sample_runtime) sample_server down_client
    "img-new" []
    = (Throw (AxiosError "Request failed with status code 404"
                (Some (404, JsString ""))),
       [image_check down_client "img-new"]).
Proof. repeat split; reflexivity. Qed.

(** C7, at the failing input.  The status endpoint answers 500 with the
    body "boom" to a client that [fromParts] built: the request rejects
    with the [AxiosError] of axios, the status test of [status()] is never
    reached and no [InternalServerError] is raised; so for a SNARK.  (The
    same answer through an instance that accepts every status does raise
    it.) *)
Theorem status_500_AxiosError :
  fromParts sample_env "https://api.example/" "secret" "1.2.0"
    = Return sample_client /\
  sample_server [] (session_status_request (rt := sample_runtime)
                      sample_session_2 sample_client)
    = Response 500 (list_byte_of_string "boom") /\
  SessionId_status (rt := sample_runtime) sample_server sample_session_2
    sample_client []
    = (Throw (AxiosError "Request failed with status code 500"
                (Some (500, JsString "boom"))),
       [session_status_request (rt := sample_runtime)
          sample_session_2 sample_client]) /\
  SnarkId_status (rt := sample_runtime) sample_server sample_snark_2
    sample_client []
    = (Throw (AxiosError "Request failed with status code 500"
                (Some (500, JsString "boom"))),
       [snark_status_request (rt := sample_runtime)
          sample_snark_2 sample_client]) /\
  fst (SessionId_status (rt := sample_runtime) sample_server sample_session_2
         lenient_client [])
    = Throw (InternalServerError "Internal server error: boom").
Proof. repeat split; reflexivity. Qed.

(** C8, at the failing input.  [createSession] does what
    [createSessionWithLimit] does without a limit, and the creation route
    answers 500 with the body "boom" to a client built on
    [constructReqClient]: both reject with the [AxiosError] of axios and
    raise no [InternalServerError].  (On a 200 both return the handle with
    the UUID of the response.) *)
Theorem createSession_500_AxiosError :
  sample_server [] (session_create_request down_client "img-1" "in-1"
                      ["a-1"; "a-2"] false None)
    = Response 500 (list_byte_of_string "boom") /\
  createSession (rt := sample_runtime) sample_server down_client
    "img-1" "in-1" ["a-1"; "a-2"] false []
    = (Throw (AxiosError "Request failed with status code 500"
                (Some (500, JsString "boom"))),
       [session_create_request down_client "img-1" "in-1" ["a-1"; "a-2"]
          false None]) /\
  createSessionWithLimit (rt := sample_runtime) sample_server down_client
    "img-1" "in-1" ["a-1"; "a-2"] false None []
    = createSession (rt := sample_runtime) sample_server down_client
        "img-1" "in-1" ["a-1"; "a-2"] false [] /\
  createSession (rt := sample_runtime) sample_server sample_client
    "img-1" "in-1" ["a-1"; "a-2"] false []
    = (Return {| uuid := JsString "sess-1" |},
       [session_create_request sample_client "img-1" "in-1" ["a-1"; "a-2"]
          false None]).
Proof. repeat split; reflexivity. Qed.

(** * Further properties of the client *)

(** ** What the methods send *)

Section Issues.
Context {rt : JsRuntime}.
Variable server : Server.
Variable c : Client.

Lemma issues_ret {A : Type} (n : nat) (a : A) : issues c n (ret a).
Proof.
  intros t. exists []. cbn [ret snd]. rewrite app_nil_r.
  repeat split; [cbn [length]; lia|constructor].
Qed.

Lemma issues_throw {A : Type} (n : nat) (e : Thrown) :
  issues c n (throw (A := A) e).
Proof.
  intros t. exists []. cbn [throw snd]. rewrite app_nil_r.
  repeat split; [cbn [length]; lia|constructor].
Qed.

Lemma issues_lift {A : Type} (n : nat) (r : Completion A) :
  issues c n (lift r).
Proof.
  intros t. exists []. cbn [lift snd]. rewrite app_nil_r.
  repeat split; [cbn [length]; lia|constructor].
Qed.

Lemma issues_bind {A B : Type} (n k : nat) (m : Async A) (f : A -> Async B) :
  issues c n m -> (forall a, issues c k (f a)) ->
  issues c (n + k) (bind m f).
Proof.
  intros Hm Hf t. destruct (Hm t) as (new1 & H1 & Hl1 & Hh1).
  unfold bind. destruct (m t) as [[a|e] t'] eqn:E; cbn [snd] in H1; subst t'.
  - destruct (Hf a (t ++ new1)%list) as (new2 & H2 & Hl2 & Hh2).
    exists (new1 ++ new2)%list. rewrite H2, app_assoc.
    repeat split; [rewrite length_app; lia|by apply Forall_app].
  - exists new1. repeat split; [lia|done].
Qed.

Lemma issues_try_catch {A : Type} (n k : nat) (m : Async A)
    (h : Thrown -> Async A) :
  issues c n m -> (forall e, issues c k (h e)) ->
  issues c (n + k) (try_catch m h).
Proof.
  intros Hm Hh t. destruct (Hm t) as (new1 & H1 & Hl1 & Hh1).
  unfold try_catch. destruct (m t) as [[a|e] t'] eqn:E; cbn [snd] in H1; subst t'.
  - exists new1. repeat split; [lia|done].
  - destruct (Hh e (t ++ new1)%list) as (new2 & H2 & Hl2 & Hh2).
    exists (new1 ++ new2)%list. rewrite H2, app_assoc.
    repeat split; [rewrite length_app; lia|by apply Forall_app].
Qed.

Lemma issues_request {D : Type} (decode : list byte -> D) (inj : D -> JsValue)
    (m : Method) (u payload : JsValue) (validate : option (Z -> bool)) :
  issues c 1
    (axios_request server decode inj (client c) m u payload validate).
Proof.
  intros t. exists [request_of (client c) m u payload].
  rewrite axios_request_trace. repeat split; [done|].
  by repeat constructor.
Qed.

(** A request, then a continuation that sends nothing more. *)
Lemma issues_request_then {D B : Type} (decode : list byte -> D)
    (inj : D -> JsValue) (m : Method) (u payload : JsValue)
    (validate : option (Z -> bool)) (k : AxiosResponse D -> Async B) :
  (forall res, issues c 0 (k res)) ->
  issues c 1
    (bind (axios_request server decode inj (client c) m u payload validate) k).
Proof. intros Hk. apply (issues_bind 1 0); [apply issues_request|exact Hk]. Qed.

Ltac quiet :=
  intros;
  repeat match goal with
         | |- issues _ _ (if ?b then _ else _) => destruct b
         end;
  first [apply issues_ret | apply issues_throw | apply issues_lift].

Lemma issues_getImageUploadUrl (imageId : string) :
  issues c 1 (getImageUploadUrl server c imageId).
Proof.
  apply issues_request_then. intros res.
  destruct (status res =? 204); [apply issues_ret|].
  destruct (negb _); [apply issues_throw|].
  apply (issues_bind 0 0); quiet.
Qed.

Lemma issues_putData (u body : JsValue) : issues c 1 (putData server c u body).
Proof.
  apply (issues_try_catch 1 0).
  - apply issues_request_then. quiet.
  - intros [m|m|m|m|m r]; apply issues_throw.
Qed.

Lemma issues_getUploadUrl (route : string) :
  issues c 1 (getUploadUrl server c route).
Proof. apply issues_request_then. quiet. Qed.

Lemma issues_download (u : JsValue) : issues c 1 (download server c u).
Proof.
  apply (issues_try_catch 1 0).
  - apply issues_request_then. quiet.
  - intros e. apply issues_throw.
Qed.

Lemma issues_uploadImg (imageId : string) (buf : list byte) :
  issues c 2 (uploadImg server c imageId buf).
Proof.
  apply (issues_bind 1 1); [apply issues_getImageUploadUrl|].
  intros [|d]; [apply issues_ret|].
  apply (issues_bind 0 1); [apply issues_lift|]. intros u.
  apply (issues_bind 1 0); [apply issues_putData|]. quiet.
Qed.

Lemma issues_uploadInput (encoded : string) :
  issues c 2 (uploadInput server c encoded).
Proof.
  apply (issues_bind 0 2); [apply issues_lift|]. intros decoded.
  apply (issues_bind 1 1); [apply issues_getUploadUrl|]. intros uploadData.
  apply (issues_bind 0 1); [apply issues_lift|]. intros u.
  apply (issues_bind 1 0); [apply issues_putData|]. quiet.
Qed.

Lemma issues_uploadReceipt (buf : list byte) :
  issues c 2 (uploadReceipt server c buf).
Proof.
  apply (issues_bind 1 1); [apply issues_getUploadUrl|]. intros uploadData.
  apply (issues_bind 0 1); [apply issues_lift|]. intros u.
  apply (issues_bind 1 0); [apply issues_putData|]. quiet.
Qed.

Lemma issues_receiptDownload (sessionId : SessionId) :
  issues c 2 (receiptDownload server c sessionId).
Proof.
  apply (issues_bind 1 1); [apply issues_request|]. intros res.
  destruct (_ || _); [quiet|].
  apply (issues_bind 0 1); [apply issues_lift|]. intros u.
  apply issues_download.
Qed.

Lemma issues_createSessionWithLimit (imgId inputId : string)
    (assumptions : list string) (executeOnly : bool) (limit : option Number) :
  issues c 1
    (createSessionWithLimit server c imgId inputId assumptions executeOnly limit).
Proof.
  apply issues_request_then. intros res.
  destruct (_ || _); [apply issues_throw|].
  apply (issues_bind 0 0); quiet.
Qed.

(** X1. Whatever the server answers, a method keeps the requests issued
    before it, adds at most two of its own (one for every method but the
    three uploads and [receiptDownload]; there is no retry), and sends
    each of them with the headers of the client's instance. *)
Theorem methods_issue :
  (forall self, issues c 1 (SessionId_status server self c)) /\
  (forall self, issues c 1 (SessionId_logs server self c)) /\
  (forall self, issues c 1 (SessionId_stop server self c)) /\
  (forall self, issues c 1 (SessionId_execOnlyJournal server self c)) /\
  (forall self, issues c 1 (SnarkId_status server self c)) /\
  (forall imageId, issues c 1 (getImageUploadUrl server c imageId)) /\
  (forall u body, issues c 1 (putData server c u body)) /\
  (forall imageId buf, issues c 2 (uploadImg server c imageId buf)) /\
  (forall route, issues c 1 (getUploadUrl server c route)) /\
  (forall encoded, issues c 2 (uploadInput server c encoded)) /\
  (forall buf, issues c 2 (uploadReceipt server c buf)) /\
  (forall sessionId, issues c 2 (receiptDownload server c sessionId)) /\
  (forall u, issues c 1 (download server c u)) /\
  (forall imageId, issues c 1 (imageDelete server c imageId)) /\
  (forall inputUuid, issues c 1 (inputDelete server c inputUuid)) /\
  (forall imgId inputId assumptions executeOnly limit,
     issues c 1 (createSessionWithLimit server c imgId inputId assumptions
                   executeOnly limit)) /\
  (forall imgId inputId assumptions executeOnly,
     issues c 1 (createSession server c imgId inputId assumptions
                   executeOnly)) /\
  (forall sessionId, issues c 1 (createSnark server c sessionId)) /\
  issues c 1 (version server c) /\
  issues c 1 (quotas server c).
Proof.
  repeat split; intros.
  - apply issues_request_then. quiet.
  - apply issues_request_then. quiet.
  - apply issues_request_then. quiet.
  - apply issues_request_then. intros res.
    destruct (negb _); [apply issues_throw|]. apply (issues_bind 0 0); quiet.
  - apply issues_request_then. quiet.
  - apply issues_getImageUploadUrl.
  - apply issues_putData.
  - apply issues_uploadImg.
  - apply issues_getUploadUrl.
  - apply issues_uploadInput.
  - apply issues_uploadReceipt.
  - apply issues_receiptDownload.
  - apply issues_download.
  - apply issues_request_then. quiet.
  - apply issues_request_then. quiet.
  - apply issues_createSessionWithLimit.
  - apply (issues_bind 1 0); [apply issues_createSessionWithLimit|]. quiet.
  - apply issues_request_then. intros res.
    destruct (_ || _); [apply issues_throw|]. apply (issues_bind 0 0); quiet.
  - apply issues_request_then. quiet.
  - apply issues_request_then. quiet.
Qed.

End Issues.

(** ** Credentials *)

Lemma constructReqClient_headers (env : Env) (key ver : string) :
  headers (constructReqClient env key ver) !! API_KEY_HEADER = Some key /\
  headers (constructReqClient env key ver) !! VERSION_HEADER = Some ver.
Proof.
  unfold constructReqClient, axios_create. cbn [headers]. split.
  - rewrite lookup_insert_ne by done. apply lookup_insert_eq.
  - apply lookup_insert_eq.
Qed.

(** X2. On a client built on [constructReqClient], every request of the
    uploads and downloads goes out with the API key and the version
    header: also the PUT to the presigned URL and the GET of a download,
    which leave for whatever host the server or the caller named. *)
Theorem presigned_requests_carry_api_key {rt : JsRuntime} (server : Server)
    (env : Env) (u key ver : string) (t : list Request) :
  let c := {| url := u; client := constructReqClient env key ver |} in
  let credentials (new : list Request) :=
    Forall (fun r => req_headers r !! API_KEY_HEADER = Some key /\
                     req_headers r !! VERSION_HEADER = Some ver) new in
  (forall encoded, exists new,
     snd (uploadInput server c encoded t) = (t ++ new)%list /\ credentials new) /\
  (forall buf, exists new,
     snd (uploadReceipt server c buf t) = (t ++ new)%list /\ credentials new) /\
  (forall imageId buf, exists new,
     snd (uploadImg server c imageId buf t) = (t ++ new)%list /\
     credentials new) /\
  (forall presigned,
     snd (download server c presigned t)
       = (t ++ [get_request c presigned])%list /\
     credentials [get_request c presigned]) /\
  (forall presigned body,
     snd (putData server c presigned body t)
       = (t ++ [request_of (client c) PUT presigned body])%list /\
     credentials [request_of (client c) PUT presigned body]) /\
  (forall sessionId, exists new,
     snd (receiptDownload server c sessionId t) = (t ++ new)%list /\
     credentials new).
Proof.
  intros c credentials.
  assert (Hc : forall new,
    Forall (fun r => req_headers r = headers (client c)) new -> credentials new).
  { intros new H. unfold credentials. eapply Forall_impl; [exact H|].
    intros r ->. apply constructReqClient_headers. }
  split; [|split; [|split; [|split; [|split]]]].
  - intros encoded.
    destruct (issues_uploadInput server c encoded t) as (new & H & _ & Hh).
    exists new. split; [exact H|by apply Hc].
  - intros buf.
    destruct (issues_uploadReceipt server c buf t) as (new & H & _ & Hh).
    exists new. split; [exact H|by apply Hc].
  - intros imageId buf.
    destruct (issues_uploadImg server c imageId buf t) as (new & H & _ & Hh).
    exists new. split; [exact H|by apply Hc].
  - intros presigned. split; [|apply Hc; by repeat constructor].
    unfold download, try_catch, bind, axios_get_arraybuffer, axios_request.
    fold (get_request c presigned).
    destruct (server t _) as [msg|s raw]; [reflexivity|].
    by destruct ((s =? 0) || _).
  - intros presigned body. split; [|apply Hc; by repeat constructor].
    unfold putData, try_catch, bind, axios_put, axios_request.
    destruct (server t _) as [msg|s raw]; [reflexivity|].
    destruct ((s =? 0) || _); [|reflexivity]. cbn [status].
    by destruct ((s <? 200) || (s >=? 300)).
  - intros sessionId.
    destruct (issues_receiptDownload server c sessionId t) as (new & H & _ & Hh).
    exists new. split; [exact H|by apply Hc].
Qed.

(** ** putData and download: which error comes out *)

Section Transfers.
Context {rt : JsRuntime}.
Variable server : Server.

(** X3. [putData] lets no [AxiosError] out.  A request without response
    raises the [InternalServerError] with the transport's message; a
    refused status raises it with the response body, or with the message
    of axios when the body is empty; a status that the instance accepts
    although it is outside 200..299 lands in the method's own [catch] and
    comes out as a plain [Error]; an accepted status inside returns. *)
Theorem putData_outcomes (c : Client) (u body : JsValue) (t : list Request) :
  let rq := request_of (client c) PUT u body in
  (forall msg, server t rq = NoResponse msg ->
     putData server c u body t
       = (Throw (InternalServerError ("Internal server error: " +:+ msg)),
          (t ++ [rq])%list)) /\
  (forall s raw, server t rq = Response s raw -> s <> 0 ->
     validateStatus (client c) s = false ->
     putData server c u body t
       = (Throw (InternalServerError
                   ("Internal server error: "
                    +:+ (if truthy (transformResponse raw)
                         then template (transformResponse raw)
                         else "Request failed with status code "
                              +:+ template (JsNumber (Num s))))),
          (t ++ [rq])%list)) /\
  (forall s raw, server t rq = Response s raw ->
     validateStatus (client c) s = true -> not_2xx s = true ->
     putData server c u body t
       = (Throw (Error ("An unexpected error occurred: "
                        +:+ "Request failed with status code "
                        +:+ template (JsNumber (Num s)))),
          (t ++ [rq])%list)) /\
  (forall s raw, server t rq = Response s raw ->
     validateStatus (client c) s = true -> not_2xx s = false ->
     putData server c u body t = (Return tt, (t ++ [rq])%list)) /\
  (forall e, fst (putData server c u body t) = Throw e ->
     (exists m, e = InternalServerError m) \/ (exists m, e = Error m)).
Proof.
  intros rq. split; [|split; [|split; [|split]]].
  - intros msg Hs. unfold putData, try_catch, bind, axios_put.
    by rewrite (axios_request_failed _ _ _ _ _ _ _ _ _ _ Hs).
  - intros s raw Hs H0 Hv. unfold putData, try_catch, bind, axios_put.
    rewrite (axios_request_rejected _ _ _ _ _ _ _ _ _ _ _ Hs) by done.
    cbn [id]. by destruct (truthy (transformResponse raw)).
  - intros s raw Hs Hv H2. unfold putData, try_catch, bind, axios_put.
    rewrite (axios_request_resolved _ _ _ _ _ _ _ _ _ _ _ Hs) by done.
    cbn [status]. unfold not_2xx in H2. by rewrite H2.
  - intros s raw Hs Hv H2. by apply (putData_ok server c u body t s raw).
  - intros e. unfold putData, try_catch, bind, axios_put, axios_request.
    destruct (server t _) as [msg|s raw].
    + intros [= <-]. left. by eexists.
    + destruct ((s =? 0) || _).
      * cbn [status]. destruct ((s <? 200) || (s >=? 300)); [|done].
        intros [= <-]. right. by eexists.
      * intros [= <-]. left. by eexists.
Qed.

(** X4. [download] raises nothing but the [SdkErr] "Download failed: ..."
    with the message of axios (a refused response's body is not in it),
    and returns the body's bytes as they are for every status that the
    instance accepts. *)
Theorem download_outcomes (c : Client) (u : JsValue) (t : list Request) :
  let rq := get_request c u in
  (forall msg, server t rq = NoResponse msg ->
     download server c u t
       = (Throw (SdkErr ("Download failed: " +:+ msg)), (t ++ [rq])%list)) /\
  (forall s raw, server t rq = Response s raw -> s <> 0 ->
     validateStatus (client c) s = false ->
     download server c u t
       = (Throw (SdkErr ("Download failed: Request failed with status code "
                         +:+ template (JsNumber (Num s)))),
          (t ++ [rq])%list)) /\
  (forall s raw, server t rq = Response s raw ->
     validateStatus (client c) s = true ->
     download server c u t = (Return raw, (t ++ [rq])%list)) /\
  (forall e, fst (download server c u t) = Throw e ->
     exists m, e = SdkErr ("Download failed: " +:+ m)).
Proof.
  intros rq. split; [|split; [|split]].
  - intros msg Hs. unfold download, try_catch, bind, axios_get_arraybuffer.
    by rewrite (axios_request_failed _ _ _ _ _ _ _ _ _ _ Hs).
  - intros s raw Hs H0 Hv. unfold download, try_catch, bind, axios_get_arraybuffer.
    by rewrite (axios_request_rejected _ _ _ _ _ _ _ _ _ _ _ Hs) by done.
  - intros s raw Hs Hv. by apply (download_ok server c u t s raw).
  - intros e. unfold download, try_catch, bind, axios_get_arraybuffer,
      axios_request.
    destruct (server t _) as [msg|s raw]; [intros [= <-]; by eexists|].
    destruct ((s =? 0) || _); [done|]. intros [= <-]. by eexists.
Qed.

(** X5. [imageDelete] and [inputDelete] test the status themselves,
    whatever the instance would accept: a status in 200..299 returns, any
    other raises the [InternalServerError] with the body, and only a
    request without response lets the [AxiosError] through. *)
Theorem delete_outcomes (c : Client) (id : string) (t : list Request) :
  (forall s raw,
     server t (delete_request c "images" id) = Response s raw ->
     imageDelete server c id t
       = (if not_2xx s
          then Throw (InternalServerError
                        ("Internal server error: "
                         +:+ template (body_text (transformResponse raw))))
          else Return tt,
          (t ++ [delete_request c "images" id])%list)) /\
  (forall msg,
     server t (delete_request c "images" id) = NoResponse msg ->
     imageDelete server c id t
       = (Throw (AxiosError msg None),
          (t ++ [delete_request c "images" id])%list)) /\
  (forall s raw,
     server t (delete_request c "inputs" id) = Response s raw ->
     inputDelete server c id t
       = (if not_2xx s
          then Throw (InternalServerError
                        ("Internal server error: "
                         +:+ template (body_text (transformResponse raw))))
          else Return tt,
          (t ++ [delete_request c "inputs" id])%list)) /\
  (forall msg,
     server t (delete_request c "inputs" id) = NoResponse msg ->
     inputDelete server c id t
       = (Throw (AxiosError msg None),
          (t ++ [delete_request c "inputs" id])%list)).
Proof.
  unfold imageDelete, inputDelete, bind, axios_delete, delete_request, not_2xx.
  split; [|split; [|split]].
  - intros s raw Hs.
    rewrite (axios_request_resolved _ _ _ _ _ _ _ _ _ _ _ Hs) by done.
    cbn [status data]. by destruct ((s <? 200) || (s >=? 300)).
  - intros msg Hs. by rewrite (axios_request_failed _ _ _ _ _ _ _ _ _ _ Hs).
  - intros s raw Hs.
    rewrite (axios_request_resolved _ _ _ _ _ _ _ _ _ _ _ Hs) by done.
    cbn [status data]. by destruct ((s <? 200) || (s >=? 300)).
  - intros msg Hs. by rewrite (axios_request_failed _ _ _ _ _ _ _ _ _ _ Hs).
Qed.

End Transfers.

(** Reading a property throws nothing but a TypeError. *)
Lemma get_prop_throws (v : JsValue) (name : string) (e : Thrown) :
  get_prop v name = Throw e -> exists msg, e = TypeError msg.
Proof. destruct v; cbn [get_prop]; intros [= <-]; by eexists. Qed.

(** ** The handle and account methods on a built client *)

Section BuiltClient.
Context {rt : JsRuntime}.
Variable server : Server.
Variables (env : Env) (base key ver : string).

(** X6. On a client built on [constructReqClient], [logs] and [stop]
    answer by the class of the status: 200 returns (the decoded body for
    [logs]); another status in 200..299 raises the [InternalServerError]
    with the body; a status outside rejects in axios, and the
    [AxiosError] comes out instead. *)
Theorem logs_stop_by_status (self : SessionId) (t : list Request)
    (s : Z) (raw : list byte) :
  s <> 0 ->
  (server t (handle_request (built_client env base key ver) "logs" (uuid self)) = Response s raw ->
   SessionId_logs server self (built_client env base key ver) t
     = (if s =? 200 then Return (transformResponse raw)
        else if not_2xx s
        then Throw (AxiosError
                      ("Request failed with status code "
                       +:+ template (JsNumber (Num s)))
                      (Some (s, transformResponse raw)))
        else Throw (InternalServerError
                      ("Internal server error: "
                       +:+ template (transformResponse raw))),
        (t ++ [handle_request (built_client env base key ver) "logs" (uuid self)])%list)) /\
  (server t (handle_request (built_client env base key ver) "stop" (uuid self)) = Response s raw ->
   SessionId_stop server self (built_client env base key ver) t
     = (if s =? 200 then Return tt
        else if not_2xx s
        then Throw (AxiosError
                      ("Request failed with status code "
                       +:+ template (JsNumber (Num s)))
                      (Some (s, transformResponse raw)))
        else Throw (InternalServerError
                      ("Internal server error: "
                       +:+ template (transformResponse raw))),
        (t ++ [handle_request (built_client env base key ver) "stop" (uuid self)])%list)).
Proof.
  intros H0.
  pose proof (constructReqClient_validateStatus env key ver s) as Hv.
  unfold SessionId_logs, SessionId_stop, bind, axios_get, handle_request.
  split; intros Hs.
  - destruct (not_2xx s) eqn:H2; cbn [negb] in Hv.
    + rewrite (axios_request_rejected _ _ _ _ _ _ _ _ _ _ _ Hs) by done.
      destruct (s =? 200) eqn:E; [|done].
      apply Z.eqb_eq in E as ->. discriminate H2.
    + rewrite (axios_request_resolved _ _ _ _ _ _ _ _ _ _ _ Hs) by done.
      cbn [status data]. by destruct (s =? 200).
  - destruct (not_2xx s) eqn:H2; cbn [negb] in Hv.
    + rewrite (axios_request_rejected _ _ _ _ _ _ _ _ _ _ _ Hs) by done.
      destruct (s =? 200) eqn:E; [|done].
      apply Z.eqb_eq in E as ->. discriminate H2.
    + rewrite (axios_request_resolved _ _ _ _ _ _ _ _ _ _ _ Hs) by done.
      cbn [status data]. by destruct (s =? 200).
Qed.

(** X7. [createSnark] on a built client never raises its
    [InternalServerError], unless a response comes without a status: a
    status outside 200..299 has rejected in axios before the test. *)
Theorem createSnark_never_InternalServerError (sessionId : JsValue)
    (t : list Request) :
  (forall raw, server t (snark_create_request (built_client env base key ver) sessionId) <> Response 0 raw) ->
  forall m, fst (createSnark server (built_client env base key ver) sessionId t)
            <> Throw (InternalServerError m).
Proof.
  intros H0 m. unfold createSnark, bind, axios_post, lift.
  destruct (server t (snark_create_request (built_client env base key ver)
                        sessionId)) as [msg|s raw] eqn:Hs.
  - by rewrite (axios_request_failed _ _ _ _ _ _ _ _ _ _ Hs).
  - assert (s <> 0) as Hne by (intros ->; exact (H0 raw eq_refl)).
    pose proof (constructReqClient_validateStatus env key ver s) as Hv.
    destruct (not_2xx s) eqn:H2; cbn [negb] in Hv.
    + by rewrite (axios_request_rejected _ _ _ _ _ _ _ _ _ _ _ Hs).
    + rewrite (axios_request_resolved _ _ _ _ _ _ _ _ _ _ _ Hs) by done.
      cbn [status data]. unfold not_2xx in H2. rewrite H2.
      destruct (get_prop _ _) as [a|e] eqn:Hp; cbv [ret fst]; [discriminate|].
      destruct (get_prop_throws _ _ _ Hp) as [msg ->]. discriminate.
Qed.

End BuiltClient.

(** ** Methods that call a method of the decoded body *)

Section BodyMethods.
Context {rt : JsRuntime}.
Variable server : Server.

Lemma call_json_decoded (v : JsValue) :
  (forall payload, v <> JsResponseLike payload) ->
  exists msg, call_json v = Throw (TypeError msg).
Proof.
  intros Hv. destruct v as [| | | | | | | |p]; try (eexists; reflexivity).
  by destruct (Hv p).
Qed.

(** X8. [version] and [quotas] call [json()] on the body that axios has
    decoded: on a 200 whose body is a JSON value, text or a buffer they
    throw a TypeError and return nothing; only a body object that has the
    method gives its payload. *)
Theorem version_quotas_json (c : Client) (t : list Request) (raw : list byte) :
  validateStatus (client c) 200 = true ->
  (server t (get_request c (JsString (url c +:+ "/version"))) = Response 200 raw ->
   (forall payload, transformResponse raw = JsResponseLike payload ->
      version server c t
        = (Return payload,
           (t ++ [get_request c (JsString (url c +:+ "/version"))])%list)) /\
   ((forall payload, transformResponse raw <> JsResponseLike payload) ->
      exists msg,
        version server c t
          = (Throw (TypeError msg),
             (t ++ [get_request c (JsString (url c +:+ "/version"))])%list))) /\
  (server t (get_request c (JsString (url c +:+ "/user/quotas")))
     = Response 200 raw ->
   (forall payload, transformResponse raw = JsResponseLike payload ->
      quotas server c t
        = (Return payload,
           (t ++ [get_request c (JsString (url c +:+ "/user/quotas"))])%list)) /\
   ((forall payload, transformResponse raw <> JsResponseLike payload) ->
      exists msg,
        quotas server c t
          = (Throw (TypeError msg),
             (t ++ [get_request c (JsString (url c +:+ "/user/quotas"))])%list))).
Proof.
  intros Hv. unfold version, quotas, bind, axios_get, get_request, lift.
  split; intros Hs;
    rewrite (axios_request_resolved _ _ _ _ _ _ _ _ _ _ _ Hs) by exact Hv;
    cbn [status data negb Z.eqb Pos.eqb]; (split; [by intros payload ->|]);
    intros Hd; destruct (call_json_decoded _ Hd) as [msg ->]; by exists msg.
Qed.

(** X9. On a client built on [constructReqClient], [execOnlyJournal]
    returns no journal, whatever the server answers: on a 200 it calls
    [arrayBuffer()] on the body that axios has decoded, which has no such
    method, and every other status raises an error. *)
Theorem execOnlyJournal_never_returns (self : SessionId) (env : Env)
    (base key ver : string) (t : list Request) (journal : list byte) :
  fst (SessionId_execOnlyJournal server self (built_client env base key ver) t)
  <> Return journal.
Proof.
  unfold SessionId_execOnlyJournal, bind, axios_get, axios_request, lift.
  destruct (server t _) as [msg|s raw]; [discriminate|].
  destruct ((s =? 0) || _); [|discriminate].
  cbn [status data]. destruct (negb (s =? 200)); [discriminate|].
  destruct (transformResponse raw); discriminate.
Qed.

End BodyMethods.

(** ** Upload and download against a storing server *)

Lemma stored_at_last_put (c : Client) (u : string) (buf : list byte)
    (t : list Request) :
  stored_at u (t ++ [put_request c (JsString u) buf]) = Some buf.
Proof.
  induction t as [|rq t IH].
  - cbn. by rewrite String.eqb_refl.
  - cbn [app stored_at]. by rewrite IH.
Qed.

(** X10. Against a server that keeps what is PUT at a presigned URL, a
    receipt uploaded with [uploadReceipt] comes back from [download] at
    the ticket's URL byte for byte; the three requests are the ticket GET,
    the PUT and the download GET. *)
Theorem uploadReceipt_download_roundtrip {rt : JsRuntime} (base : Server)
    (c : Client) (buf : list byte) (t : list Request) (ticket : list byte)
    (u : string) (id : JsValue) :
  let server := with_storage base in
  let rq1 := upload_ticket_request c "receipts" in
  let rq2 := put_request c (JsString u) buf in
  let rq3 := get_request c (JsString u) in
  validateStatus (client c) 200 = true ->
  server t rq1 = Response 200 ticket ->
  get_prop (transformResponse ticket) "url" = Return (JsString u) ->
  get_prop (transformResponse ticket) "uuid" = Return id ->
  uploadReceipt server c buf t = (Return id, (t ++ [rq1; rq2])%list) /\
  download server c (JsString u) (t ++ [rq1; rq2])%list
    = (Return buf, (t ++ [rq1; rq2; rq3])%list).
Proof.
  intros server rq1 rq2 rq3 Hv Hs Hu Hid. split.
  - unfold uploadReceipt, bind, lift.
    rewrite (getUploadUrl_ok server c "receipts" t ticket Hs Hv), Hu.
    rewrite (putData_ok server c (JsString u) (JsBytes buf) _ 200 []);
      [|reflexivity|exact Hv|reflexivity].
    rewrite Hid. by rewrite <- app_assoc.
  - rewrite (download_ok server c (JsString u) _ 200 buf); [|  |exact Hv].
    + by rewrite <- app_assoc.
    + unfold server, with_storage. cbn [req_method req_url request_of].
      replace (t ++ [rq1; rq2])%list with ((t ++ [rq1]) ++ [rq2])%list
        by by rewrite <- app_assoc.
      unfold rq2. by rewrite stored_at_last_put.
Qed.

(** ** Hex strings with a prefix, and strings that are no hex *)

Lemma regex_pairs_0x (h : string) :
  regex_pairs ("0x" +:+ h) = "0x" :: regex_pairs h.
Proof. reflexivity. Qed.

(** X11. For an input that starts with "0x" and goes on in hex digits, as
    the ABI encoders give it, the first decoded byte is the prefix (it
    reads as 0): [uploadInput] drops it and PUTs exactly the bytes that the
    digits denote. *)
Theorem uploadInput_0x_prefixed {rt : JsRuntime} (server : Server)
    (c : Client) (h : string) (t : list Request) (ticket : list byte)
    (u id : JsValue) (s : Z) (raw : list byte) :
  let rq1 := upload_ticket_request c "inputs" in
  let rq2 := put_request c u (hex_decode h) in
  is_hex h = true ->
  validateStatus (client c) 200 = true ->
  server t rq1 = Response 200 ticket ->
  get_prop (transformResponse ticket) "url" = Return u ->
  get_prop (transformResponse ticket) "uuid" = Return id ->
  server (t ++ [rq1])%list rq2 = Response s raw ->
  validateStatus (client c) s = true -> not_2xx s = false ->
  fromHexString ("0x" +:+ h) = Return (x00 :: hex_decode h) /\
  uploadInput server c ("0x" +:+ h) t = (Return id, (t ++ [rq1; rq2])%list).
Proof.
  intros rq1 rq2 Hh Hv Hs Hu Hid Hput Hvs H2.
  assert (Hdec : fromHexString ("0x" +:+ h) = Return (x00 :: hex_decode h)).
  { unfold fromHexString, match_pairs. rewrite regex_pairs_0x.
    unfold Uint8Array_from. cbn [map]. f_equal. f_equal.
    exact (regex_pairs_hex h Hh). }
  split; [exact Hdec|].
  unfold uploadInput, bind, lift. rewrite Hdec, shift_Array_from. cbn [tail].
  rewrite (getUploadUrl_ok server c "inputs" t ticket Hs Hv), Hu.
  rewrite (putData_ok server c u _ _ s raw Hput Hvs H2), Hid.
  by rewrite <- app_assoc.
Qed.

Lemma regex_pairs_length (s : string) :
  (forall ch, In ch (list_ascii_of_string s) -> is_LineTerminator ch = false) ->
  Z.of_nat (length (regex_pairs s)) = (Z.of_nat (String.length s) + 1) / 2.
Proof.
  induction s as [|a|a b r IH] using string_pair_ind; intros H.
  - reflexivity.
  - cbn [regex_pairs]. by rewrite (H a (or_introl eq_refl)).
  - cbn [regex_pairs].
    rewrite (H a (or_introl eq_refl)), (H b (or_intror (or_introl eq_refl))).
    cbn [length String.length]. rewrite !Nat2Z.inj_succ, IH.
    + replace (Z.succ (Z.succ (Z.of_nat (String.length r))) + 1)
        with ((Z.of_nat (String.length r) + 1) + 1 * 2) by lia.
      rewrite Z.div_add by lia. lia.
    + intros ch Hch. apply H. right. by right.
Qed.

Lemma only_terminators_or_not (l : list ascii) :
  (forall ch, In ch l -> is_LineTerminator ch = true) \/
  (exists ch, In ch l /\ is_LineTerminator ch = false).
Proof.
  induction l as [|a l [IH|(ch & Hin & Hch)]].
  - left. intros ch [].
  - destruct (is_LineTerminator a) eqn:E.
    + left. intros ch [<-|Hin]; auto.
    + right. exists a. split; [by left|exact E].
  - right. exists ch. split; [by right|exact Hch].
Qed.

(** X12. [fromHexString] checks nothing: on every non-empty string
    without line terminator, hex or not, it yields one byte for each two
    characters, rounded up; it throws exactly on the strings made of line
    terminators only. *)
Theorem fromHexString_accepts (s : string) :
  ((exists bytes, fromHexString s = Return bytes) <->
   exists ch, In ch (list_ascii_of_string s) /\ is_LineTerminator ch = false) /\
  (s <> "" ->
   (forall ch, In ch (list_ascii_of_string s) -> is_LineTerminator ch = false) ->
   exists bytes,
     fromHexString s = Return bytes /\
     Z.of_nat (length bytes) = (Z.of_nat (String.length s) + 1) / 2).
Proof.
  split.
  - pose proof (match_pairs_None s) as HN. unfold fromHexString.
    destruct (match_pairs s) as [l|].
    + split; [intros _|by eexists].
      destruct (only_terminators_or_not (list_ascii_of_string s)) as [He|He].
      * assert (Some l = None) as Habs; [|discriminate Habs]. by apply HN.
      * exact He.
    + split; [intros [bytes Hb]; discriminate Hb|].
      intros (ch & Hin & Hch). rewrite (proj1 HN eq_refl ch Hin) in Hch.
      discriminate Hch.
  - intros Hne Hall. pose proof (regex_pairs_length s Hall) as Hlen.
    unfold fromHexString, match_pairs.
    destruct (regex_pairs s) as [|p l] eqn:E.
    + destruct s as [|a r]; [done|]. cbn [length String.length] in Hlen.
      exfalso. rewrite Nat2Z.inj_succ in Hlen.
      assert (1 <= (Z.succ (Z.of_nat (String.length r)) + 1) / 2).
      { apply Z.div_le_lower_bound; lia. }
      cbn in Hlen. lia.
    + eexists. split; [reflexivity|].
      unfold Uint8Array_from. by rewrite !length_map.
Qed.

(** ** The two constructors *)

(** X13. [fromEnv] returns exactly the clients that [fromParts] returns on
    the URL and key it resolved, and only for non-empty ones: a client
    from the environment never has an empty key, while [fromParts] itself
    takes any strings, empty ones too. *)
Theorem fromEnv_is_fromParts (env : Env) (ver : string) :
  (forall u key, getURL env = Return (Some u) -> u <> "" ->
     getKey env = Return (Some key) -> key <> "" ->
     fromEnv env ver = fromParts env u key ver) /\
  (forall c, fromEnv env ver = Return c ->
     exists u key,
       getURL env = Return (Some u) /\ u <> "" /\
       getKey env = Return (Some key) /\ key <> "" /\
       fromParts env u key ver = Return c /\
       headers (client c) !! API_KEY_HEADER = Some key) /\
  (forall u key, exists c,
     fromParts env u key ver = Return c /\
     headers (client c) !! API_KEY_HEADER = Some key).
Proof.
  split; [|split].
  - intros u key Hu Hne Hk Hkne. unfold fromEnv, fromParts. rewrite Hu, Hk.
    destruct u as [|a u]; [done|]. by destruct key as [|b key].
  - intros c. unfold fromEnv, fromParts.
    destruct (getURL env) as [[[|a u]|]|e]; try discriminate.
    destruct (getKey env) as [[[|b key]|]|e]; try discriminate.
    cbn [truthy_str negb default from_option id]. intros [= <-].
    exists (String a u), (String b key).
    repeat split; first [done | apply constructReqClient_headers].
  - intros u key. eexists. split; [reflexivity|].
    apply constructReqClient_headers.
Qed.

(** ** Timeout values with something after the digits *)

Lemma not_decimal_digit (ch : ascii) :
  is_decimal_digit ch = false -> radix_digit 10 ch = None.
Proof.
  each_ascii ch; intros H; vm_compute in H; try discriminate H; reflexivity.
Qed.

Lemma digits_prefix_decimal_app (d rest : string) :
  all_decimal d = true ->
  (forall ch r, rest = String ch r -> is_decimal_digit ch = false) ->
  digits_prefix 10 (d +:+ rest)
  = map (fun ch => code ch - 48) (list_ascii_of_string d).
Proof.
  intros Hd Hrest. induction d as [|a d IH].
  - destruct rest as [|ch r]; [reflexivity|].
    pose proof (not_decimal_digit ch (Hrest ch r eq_refl)) as Hn.
    change (digits_prefix 10 ("" +:+ String ch r))
      with (match radix_digit 10 ch with
            | Some v => v :: digits_prefix 10 r
            | None => []
            end).
    by rewrite Hn.
  - cbn [all_decimal] in Hd. apply andb_prop in Hd as [Ha Hd].
    destruct (decimal_digit_class a Ha) as (_ & Hda & _).
    change (String a d +:+ rest) with (String a (d +:+ rest)).
    cbn [digits_prefix list_ascii_of_string map].
    by rewrite Hda, (IH Hd).
Qed.

Lemma parseInt_decimal_prefix (d rest : string) :
  d <> "" -> all_decimal d = true ->
  (forall ch r, rest = String ch r -> is_decimal_digit ch = false) ->
  parseInt (d +:+ rest) 10 = Num (decimal_value d) /\
  parseInt ("-" +:+ d +:+ rest) 10 = Num (- decimal_value d).
Proof.
  intros Hne Hd Hrest.
  pose proof (digits_prefix_decimal_app d rest Hd Hrest) as Hp.
  destruct d as [|a d]; [done|]. cbn [all_decimal] in Hd.
  apply andb_prop in Hd as [Ha _].
  destruct (decimal_digit_class a Ha) as (Hw & _ & Hm & Hpl).
  assert (Hv : mathInt 10 (map (fun ch => code ch - 48)
                             (list_ascii_of_string (String a d)))
               = decimal_value (String a d)).
  { unfold mathInt, decimal_value. apply mathInt_fold. }
  split.
  - unfold parseInt.
    change (String a d +:+ rest) with (String a (d +:+ rest)).
    cbn [trimStart]. rewrite Hw.
    rewrite strip_sign_other by assumption.
    change ((10 =? 0) || (2 <=? 10) && (10 <=? 36)) with true.
    change ((10 =? 0) || (10 =? 16)) with false.
    change (if 10 =? 0 then 10 else 10) with 10. cbv iota.
    change (String a (d +:+ rest)) with (String a d +:+ rest).
    rewrite Hp. cbn [list_ascii_of_string map] in *. rewrite Hv. f_equal. lia.
  - unfold parseInt.
    change (trimStart ("-" +:+ String a d +:+ rest))
      with ("-" +:+ String a d +:+ rest).
    change (strip_sign ("-" +:+ String a d +:+ rest))
      with (-1, String a d +:+ rest).
    change ((10 =? 0) || (2 <=? 10) && (10 <=? 36)) with true.
    change ((10 =? 0) || (10 =? 16)) with false.
    change (if 10 =? 0 then 10 else 10) with 10. cbv iota.
    rewrite Hp. cbn [list_ascii_of_string map] in *. rewrite Hv. f_equal; lia.
Qed.

(** X14. A timeout value that starts with decimal digits is read up to
    the first other character: "5000ms" configures 5000.  A minus sign in
    front gives the negative number, which is configured as it is. *)
Theorem timeout_numeric_prefix (env : Env) (key ver d rest : string) :
  d <> "" -> all_decimal d = true ->
  (forall ch r, rest = String ch r -> is_decimal_digit ch = false) ->
  timeout (constructReqClient (<[TIMEOUT_ENVVAR := d +:+ rest]> env) key ver)
    = Some (Num (decimal_value d)) /\
  timeout (constructReqClient
             (<[TIMEOUT_ENVVAR := "-" +:+ d +:+ rest]> env) key ver)
    = Some (Num (- decimal_value d)).
Proof.
  intros Hne Hd Hrest.
  destruct (parseInt_decimal_prefix d rest Hne Hd Hrest) as [Hp Hn].
  rewrite !constructReqClient_timeout, !lookup_insert_eq.
  unfold resolve_timeout. rewrite Hp, Hn.
  destruct d as [|a d]; [done|]. cbn [all_decimal] in Hd.
  apply andb_prop in Hd as [Ha _].
  split; rewrite decide_False; try reflexivity.
  - cbn [String.append]. intros [= -> _]. discriminate Ha.
  - cbn [String.append]. discriminate.
Qed.

(** * The further properties on the route-table server *)

Lemma putData_outcomes_witness :
  putData (rt := account_runtime) account_server sample_client
    (JsString "https://gone") (JsBytes [x01]) []
    = (Throw (InternalServerError
                "Internal server error: timeout of 30000ms exceeded"),
       [request_of (client sample_client) PUT (JsString "https://gone")
          (JsBytes [x01])]) /\
  putData (rt := account_runtime) account_server sample_client
    (JsString "https://full") (JsBytes [x01]) []
    = (Throw (InternalServerError "Internal server error: no space"),
       [request_of (client sample_client) PUT (JsString "https://full")
          (JsBytes [x01])]) /\
  putData (rt := account_runtime) account_server sample_client
    (JsString "https://empty") (JsBytes [x01]) []
    = (Throw (InternalServerError
                "Internal server error: Request failed with status code 500"),
       [request_of (client sample_client) PUT (JsString "https://empty")
          (JsBytes [x01])]) /\
  putData (rt := account_runtime) account_server lenient_client
    (JsString "https://full") (JsBytes [x01]) []
    = (Throw (Error
                "An unexpected error occurred: Request failed with status code 507"),
       [request_of (client lenient_client) PUT (JsString "https://full")
          (JsBytes [x01])]) /\
  putData (rt := account_runtime) account_server sample_client
    (JsString "https://x") (JsBytes [x01]) []
    = (Return tt,
       [request_of (client sample_client) PUT (JsString "https://x")
          (JsBytes [x01])]).
Proof.
  split; [|split; [|split; [|split]]].
  - exact (proj1 (putData_outcomes (rt := account_runtime) account_server
                    sample_client (JsString "https://gone") (JsBytes [x01]) [])
             _ eq_refl).
  - refine (proj1 (proj2 (putData_outcomes (rt := account_runtime)
                            account_server sample_client
                            (JsString "https://full") (JsBytes [x01]) []))
              507 _ eq_refl _ eq_refl). lia.
  - refine (proj1 (proj2 (putData_outcomes (rt := account_runtime)
                            account_server sample_client
                            (JsString "https://empty") (JsBytes [x01]) []))
              500 _ eq_refl _ eq_refl). lia.
  - exact (proj1 (proj2 (proj2 (putData_outcomes (rt := account_runtime)
                                  account_server lenient_client
                                  (JsString "https://full") (JsBytes [x01]) [])))
             507 _ eq_refl eq_refl eq_refl).
  - exact (proj1 (proj2 (proj2 (proj2
             (putData_outcomes (rt := account_runtime) account_server
                sample_client (JsString "https://x") (JsBytes [x01]) []))))
             200 _ eq_refl eq_refl eq_refl).
Defined.

Lemma download_outcomes_witness :
  download (rt := account_runtime) account_server sample_client
    (JsString "https://y") []
    = (Return sample_receipt, [get_request sample_client (JsString "https://y")]) /\
  download (rt := account_runtime) account_server sample_client
    (JsString "https://gone") []
    = (Throw (SdkErr "Download failed: Network Error"),
       [get_request sample_client (JsString "https://gone")]) /\
  download (rt := account_runtime) account_server sample_client
    (JsString "https://full") []
    = (Throw (SdkErr "Download failed: Request failed with status code 403"),
       [get_request sample_client (JsString "https://full")]) /\
  download (rt := account_runtime) account_server lenient_client
    (JsString "https://full") []
    = (Return (list_byte_of_string "denied"),
       [get_request lenient_client (JsString "https://full")]).
Proof.
  split; [|split; [|split]].
  - exact (proj1 (proj2 (proj2 (download_outcomes (rt := account_runtime)
             account_server sample_client (JsString "https://y") [])))
             200 _ eq_refl eq_refl).
  - exact (proj1 (download_outcomes (rt := account_runtime)
             account_server sample_client (JsString "https://gone") [])
             _ eq_refl).
  - refine (proj1 (proj2 (download_outcomes (rt := account_runtime)
             account_server sample_client (JsString "https://full") []))
             403 _ eq_refl _ eq_refl). lia.
  - exact (proj1 (proj2 (proj2 (download_outcomes (rt := account_runtime)
             account_server lenient_client (JsString "https://full") [])))
             403 _ eq_refl eq_refl).
Defined.

Lemma delete_outcomes_witness :
  imageDelete (rt := account_runtime) account_server sample_client "img-1" []
    = (Return tt, [delete_request sample_client "images" "img-1"]) /\
  imageDelete (rt := account_runtime) account_server sample_client "img-2" []
    = (Throw (InternalServerError "Internal server error: boom"),
       [delete_request sample_client "images" "img-2"]) /\
  inputDelete (rt := account_runtime) account_server sample_client "in-2" []
    = (Throw (InternalServerError "Internal server error: denied"),
       [delete_request sample_client "inputs" "in-2"]) /\
  inputDelete (rt := account_runtime) account_server sample_client "in-3" []
    = (Throw (AxiosError "Network Error" None),
       [delete_request sample_client "inputs" "in-3"]).
Proof.
  split; [|split; [|split]].
  - exact (proj1 (delete_outcomes (rt := account_runtime) account_server
                    sample_client "img-1" []) 204 _ eq_refl).
  - exact (proj1 (delete_outcomes (rt := account_runtime) account_server
                    sample_client "img-2" []) 500 _ eq_refl).
  - exact (proj1 (proj2 (proj2 (delete_outcomes (rt := account_runtime)
                    account_server sample_client "in-2" []))) 403 _ eq_refl).
  - exact (proj2 (proj2 (proj2 (delete_outcomes (rt := account_runtime)
                    account_server sample_client "in-3" []))) _ eq_refl).
Defined.

Lemma logs_stop_by_status_witness :
  SessionId_logs (rt := account_runtime) account_server
    {| uuid := JsString "sess-1" |} sample_client []
    = (Return (JsString "cycles: 42"),
       [handle_request (rt := account_runtime) sample_client "logs" (JsString "sess-1")]) /\
  SessionId_logs (rt := account_runtime) account_server
    {| uuid := JsString "sess-3" |} sample_client []
    = (Throw (InternalServerError "Internal server error: "),
       [handle_request (rt := account_runtime) sample_client "logs" (JsString "sess-3")]) /\
  SessionId_stop (rt := account_runtime) account_server
    {| uuid := JsString "sess-2" |} sample_client []
    = (Throw (AxiosError "Request failed with status code 500"
                (Some (500, JsString "boom"))),
       [handle_request (rt := account_runtime) sample_client "stop" (JsString "sess-2")]).
Proof.
  split; [|split].
  - refine (proj1 (logs_stop_by_status (rt := account_runtime) account_server
                     sample_env "https://api.example" "secret" "1.2.0"
                     {| uuid := JsString "sess-1" |} [] 200
                     (list_byte_of_string "cycles: 42") _) eq_refl). lia.
  - refine (proj1 (logs_stop_by_status (rt := account_runtime) account_server
                     sample_env "https://api.example" "secret" "1.2.0"
                     {| uuid := JsString "sess-3" |} [] 204 [] _) eq_refl). lia.
  - refine (proj2 (logs_stop_by_status (rt := account_runtime) account_server
                     sample_env "https://api.example" "secret" "1.2.0"
                     {| uuid := JsString "sess-2" |} [] 500
                     (list_byte_of_string "boom") _) eq_refl). lia.
Defined.

Lemma createSnark_never_InternalServerError_witness :
  createSnark (rt := account_runtime) account_server sample_client
    (JsString "sess-1") []
    = (Return {| snark_uuid := JsString "sess-1" |},
       [snark_create_request (rt := account_runtime) sample_client (JsString "sess-1")]) /\
  forall m,
    fst (createSnark (rt := account_runtime) account_server down_client
           (JsString "sess-1") [])
    <> Throw (InternalServerError m).
Proof.
  split; [reflexivity|].
  apply (createSnark_never_InternalServerError (rt := account_runtime)
           account_server sample_env "https://down.example" "secret" "1.2.0"
           (JsString "sess-1") []).
  intros raw. discriminate.
Defined.

Lemma version_quotas_json_witness :
  transformResponse (JsRuntime := account_runtime) (json_text sample_versions)
    = JsObject [("risc0_zkvm", JsString "1.2.0")] /\
  (exists msg,
     version (rt := account_runtime) account_server sample_client []
       = (Throw (TypeError msg),
          [get_request sample_client (JsString "https://api.example/version")])) /\
  (exists msg,
     quotas (rt := account_runtime) account_server sample_client []
       = (Throw (TypeError msg),
          [get_request sample_client
             (JsString "https://api.example/user/quotas")])).
Proof.
  split; [reflexivity|].
  pose proof (version_quotas_json (rt := account_runtime) account_server
                sample_client [] (json_text sample_versions) eq_refl)
    as [Hv Hq].
  split.
  - apply (proj2 (Hv eq_refl)). intros payload. discriminate.
  - apply (proj2 (Hq eq_refl)). intros payload. discriminate.
Defined.

Lemma uploadReceipt_download_roundtrip_witness :
  uploadReceipt (rt := account_runtime) (with_storage account_server)
    sample_client [x0a; x0b; x0c] []
    = (Return (JsString "in-1"),
       [ upload_ticket_request sample_client "receipts";
         put_request sample_client (JsString "https://x") [x0a; x0b; x0c] ]) /\
  download (rt := account_runtime) (with_storage account_server)
    sample_client (JsString "https://x")
    [ upload_ticket_request sample_client "receipts";
      put_request sample_client (JsString "https://x") [x0a; x0b; x0c] ]
    = (Return [x0a; x0b; x0c],
       [ upload_ticket_request sample_client "receipts";
         put_request sample_client (JsString "https://x") [x0a; x0b; x0c];
         get_request sample_client (JsString "https://x") ]).
Proof.
  exact (uploadReceipt_download_roundtrip (rt := account_runtime)
           account_server sample_client [x0a; x0b; x0c] []
           (json_text sample_ticket) "https://x" (JsString "in-1")
           eq_refl eq_refl eq_refl eq_refl).
Defined.

Lemma uploadInput_0x_prefixed_witness :
  fromHexString "0x00ff" = Return [x00; x00; xff] /\
  uploadInput (rt := account_runtime) account_server sample_client "0x00ff" []
    = (Return (JsString "in-1"),
       [ upload_ticket_request sample_client "inputs";
         put_request sample_client (JsString "https://x") [x00; xff] ]).
Proof.
  exact (uploadInput_0x_prefixed (rt := account_runtime) account_server
           sample_client "00ff" [] (json_text sample_ticket)
           (JsString "https://x") (JsString "in-1") 200 []
           eq_refl eq_refl eq_refl eq_refl eq_refl eq_refl eq_refl eq_refl).
Defined.

Lemma fromHexString_accepts_witness :
  exists bytes, fromHexString "hello" = Return bytes /\
                Z.of_nat (length bytes) = 3.
Proof.
  apply (proj2 (fromHexString_accepts "hello")); [discriminate|].
  intros ch Hin. cbn in Hin.
  repeat (destruct Hin as [<-|Hin]; [reflexivity|]). destruct Hin.
Defined.

Lemma fromEnv_is_fromParts_witness :
  fromEnv sample_env "1.2.0"
    = fromParts sample_env "https://api.example/" "secret" "1.2.0".
Proof.
  apply (proj1 (fromEnv_is_fromParts sample_env "1.2.0"));
    first [reflexivity | discriminate].
Defined.

Lemma timeout_numeric_prefix_witness :
  timeout (constructReqClient (<[TIMEOUT_ENVVAR := "5000ms"]> ∅) "secret" "1.2.0")
    = Some (Num 5000) /\
  timeout (constructReqClient (<[TIMEOUT_ENVVAR := "-5000ms"]> ∅) "secret" "1.2.0")
    = Some (Num (-5000)).
Proof.
  apply (timeout_numeric_prefix ∅ "secret" "1.2.0" "5000" "ms");
    [discriminate|reflexivity|].
  intros ch r [= <- _]. reflexivity.
Defined.
